(** * CommunityMQTTFeed: a shallow embedding of
      octobot/community/feeds/community_mqtt_feed.py

    The feed is modelled as explicit state passing over a record that holds
    the attributes of the Python object, together with a trace of the
    observable calls the feed makes on its collaborators (logger, gmqtt
    client, registered callbacks).  Python exceptions are values of [exn]
    carried by [result]. *)

From Stdlib Require Import ZArith NArith Strings.Byte Ascii String DecimalString.
From stdpp Require Import gmap strings list.

Local Open Scope string_scope.
Local Open Scope Z_scope.
Local Open Scope list_scope.
Local Set Warnings "-register-all".


(** ** Python values, exceptions and results *)

Abbreviation bytes := (list byte).

Inductive exn :=
| ZlibError                       (* zlib.error *)
| UnicodeDecodeError
| JSONDecodeError
| TypeError
| KeyError (key : string)
| AttributeError
| ValueError
| UnsupportedError (msg : string) (* octobot_commons.errors.UnsupportedError *)
| OtherError (name : string).     (* anything else a collaborator raises *)

Inductive result (A : Type) :=
| Ok (a : A)
| Raise (e : exn).
Arguments Ok {A} a.
Arguments Raise {A} e.

(** A member of an [enum.Enum] class, such as
    [commons_enums.CommunityChannelTypes.SIGNAL]. *)
Record EnumMember := {
  enum_class : string;
  name : string;
  value : string;
}.

(** The Python objects that travel through the feed: what [json] produces
    and accepts, byte strings, and enum members. Dictionaries keep insertion
    order. *)
Inductive pyobj :=
| PNone
| PBool (b : bool)
| PInt (z : Z)
| PStr (s : string)
| PBytes (b : bytes)
| PList (l : list pyobj)
| PDict (d : list (string * pyobj))
| PEnum (m : EnumMember).

(** [bool(obj)], as used by [if message:]. *)
Definition truthy (o : pyobj) : bool :=
  match o with
  | PNone => false
  | PBool b => b
  | PInt z => negb (z =? 0)
  | PStr s => negb (String.eqb s EmptyString)
  | PBytes b => match b with [] => false | _ => true end
  | PList l => match l with [] => false | _ => true end
  | PDict d => match d with [] => false | _ => true end
  | PEnum _ => true
  end.

(** [d[k] = v] on an insertion-ordered dict. *)
Fixpoint dict_set (d : list (string * pyobj)) (k : string) (v : pyobj)
  : list (string * pyobj) :=
  match d with
  | [] => [(k, v)]
  | (k', v') :: d' =>
      if String.eqb k' k then (k', v) :: d' else (k', v') :: dict_set d' k v
  end.

Fixpoint dict_get (d : list (string * pyobj)) (k : string) : option pyobj :=
  match d with
  | [] => None
  | (k', v') :: d' => if String.eqb k' k then Some v' else dict_get d' k
  end.

(** [obj[key]] with a string key. *)
Definition py_getitem (o : pyobj) (key : string) : result pyobj :=
  match o with
  | PDict d => match dict_get d key with
               | Some v => Ok v
               | None => Raise (KeyError key)
               end
  | _ => Raise TypeError
  end.

(** ** distutils.version.LooseVersion *)

Definition is_digit (c : ascii) : bool :=
  let n := N_of_ascii c in ((48 <=? n) && (n <=? 57))%N.

Module LooseVersion.

Inductive component :=
| CInt (n : N)
| CStr (s : string).

(** The alternatives of [component_re = (\d+ | [a-z]+ | \.)]. *)
Inductive char_class := Digit | Lower | Dot | Other.

Definition classify (c : ascii) : char_class :=
  let n := N_of_ascii c in
  if is_digit c then Digit
  else if ((97 <=? n) && (n <=? 122))%N then Lower
  else if (n =? 46)%N then Dot
  else Other.

Definition class_eqb (a b : char_class) : bool :=
  match a, b with
  | Digit, Digit | Lower, Lower | Dot, Dot | Other, Other => true
  | _, _ => false
  end.

(** [component_re.split(vstring)] without the empty pieces: maximal runs of
    digits, maximal runs of lower-case letters, single dots, and the
    separators left between them. *)
Fixpoint split (s : string) : list (char_class * string) :=
  match s with
  | EmptyString => []
  | String c s' =>
      let k := classify c in
      match k, split s' with
      | Dot, r => (Dot, String c EmptyString) :: r
      | _, (k', t) :: r =>
          if class_eqb k k' then (k, String c t) :: r
          else (k, String c EmptyString) :: (k', t) :: r
      | _, [] => [(k, String c EmptyString)]
      end
  end.

(** [int(x)] on a run of decimal digits. *)
Fixpoint int_of_digits (acc : N) (s : string) : N :=
  match s with
  | EmptyString => acc
  | String c s' => int_of_digits (10 * acc + (N_of_ascii c - 48))%N s'
  end.

(** [parse]: drop the dots, turn digit runs into ints. *)
Fixpoint components (l : list (char_class * string)) : list component :=
  match l with
  | [] => []
  | (Dot, _) :: r => components r
  | (Digit, t) :: r => CInt (int_of_digits 0 t) :: components r
  | (_, t) :: r => CStr t :: components r
  end.

Definition parse (vstring : string) : list component :=
  components (split vstring).

(** A [LooseVersion] instance: [version] is set by [parse] only. *)
Record t := { version : option (list component) }.

(** [LooseVersion(vstring)]: [if vstring: self.parse(vstring)];
    [re.split] raises [TypeError] on anything but a string. *)
Definition init (vstring : pyobj) : result t :=
  if truthy vstring then
    match vstring with
    | PStr s => Ok {| version := Some (parse s) |}
    | _ => Raise TypeError
    end
  else Ok {| version := None |}.

Definition component_eqb (a b : component) : bool :=
  match a, b with
  | CInt x, CInt y => (x =? y)%N
  | CStr s, CStr u => String.eqb s u
  | _, _ => false
  end.

(** [a < b] on components: ints with ints, strings with strings. *)
Definition component_lt (a b : component) : result bool :=
  match a, b with
  | CInt x, CInt y => Ok (x <? y)%N
  | CStr s, CStr u => Ok (String.ltb s u)
  | _, _ => Raise TypeError
  end.

Fixpoint list_eqb (v w : list component) : bool :=
  match v, w with
  | [], [] => true
  | a :: v', b :: w' => component_eqb a b && list_eqb v' w'
  | _, _ => false
  end.

(** Python's list [<]: the first pair of unequal items decides, else the
    shorter list is the smaller. *)
Fixpoint list_lt (v w : list component) : result bool :=
  match v, w with
  | [], [] => Ok false
  | [], _ :: _ => Ok true
  | _ :: _, [] => Ok false
  | a :: v', b :: w' =>
      if component_eqb a b then list_lt v' w' else component_lt a b
  end.

Definition get_version (x : t) : result (list component) :=
  match version x with
  | Some v => Ok v
  | None => Raise AttributeError
  end.

(** [_cmp]: 0, -1, 1, or [None] when no branch returns. *)
Definition _cmp (self other : t) : result (option Z) :=
  match get_version self with
  | Raise e => Raise e
  | Ok v =>
      match get_version other with
      | Raise e => Raise e
      | Ok w =>
          if list_eqb v w then Ok (Some 0)
          else match list_lt v w with
               | Raise e => Raise e
               | Ok true => Ok (Some (-1))
               | Ok false =>
                   match list_lt w v with
                   | Raise e => Raise e
                   | Ok true => Ok (Some 1)
                   | Ok false => Ok None
                   end
               end
      end
  end.

(** [__lt__]: [c < 0]. *)
Definition lt (self other : t) : result bool :=
  match _cmp self other with
  | Raise e => Raise e
  | Ok (Some c) => Ok (c <? 0)
  | Ok None => Raise TypeError
  end.

End LooseVersion.

(** ** Collaborators outside the repository *)

(** [zlib], [json] and the UTF-8 codec of [str.encode] / [bytes.decode].
    A failing call raises the exception the library raises. *)
Class PyLibs := {
  zlib_compress : bytes → bytes;
  zlib_decompress : bytes → result bytes;
  json_dumps : pyobj → result string;
  json_loads : string → result pyobj;
  str_encode : string → bytes;
  bytes_decode : bytes → result string;
}.

(** Constants the module imports: [octobot.constants],
    [octobot_commons.enums.CommunityFeedAttrs] and [gmqtt.constants]. *)
Class Constants := {
  COMMUNITY_FEED_CURRENT_MINIMUM_VERSION : string;
  CHANNEL_TYPE : string;
  VERSION : string;
  VALUE : string;
  CommunityChannelTypes : list EnumMember;
  UNSPECIFIED_ERROR : Z;
  MQTTv311 : Z;
}.

(** [gmqtt.Subscription] and the part of [gmqtt.Client] the feed reads. *)
Record Subscription := {
  topic : string;
  qos : Z;
  mid : option Z;
}.

Record Client := {
  _client_id : string;
  is_connected : bool;
  subscriptions : list Subscription;
}.

Definition Z_eqb_opt (a : option Z) (b : Z) : bool :=
  match a with
  | Some x => x =? b
  | None => false
  end.

Definition get_subscriptions_by_mid (client : Client) (m : Z)
  : list Subscription :=
  filter (λ sub, Z_eqb_opt (mid sub) m = true) (subscriptions client).

(** A registered callback: a coroutine function of the application, run to
    completion when awaited; it returns or raises. It does not call back
    into the feed, so the registry is the same before and after it ran. *)
Record callback := {
  cb_name : string;
  cb_run : pyobj → result unit;
}.

(** ** Observable behaviour *)

Inductive level := DEBUG | INFO | WARNING | ERROR.

(** One constructor per log call of the module. *)
Inductive log_message :=
| RECV_MSG (client_id topic : string) (payload : bytes) (qos : Z)
| Unsupported_message (e : string)
| No_topic_to_subscribe_to
| Subscribing_to (topics : string)
| CONNECTED (client_id : string)
| DISCONNECTED (client_id : string)
| RETRYING_SUB (client_id : string) (mid reason_code : Z)
| SUBSCRIBED (client_id : string) (mid qos : Z)
| Connecting_client.

Inductive event :=
| Log (lvl : level) (msg : log_message)
| Publish (topic : string) (payload : pyobj) (qos : Z)
| Subscribe (subs : list Subscription)
| Resubscribe (sub : Subscription)
| SetAuthCredentials (username : option string)
| Connect (host : string) (port version : Z)
| Disconnect
| Await (cb : string) (arg : pyobj).

(** The subscriptions re-issued by a sequence of events, in order. *)
Definition resubscribed (es : list event) : list Subscription :=
  omap (λ e, match e with Resubscribe sub => Some sub | _ => None end) es.

(** The subscribe requests of a sequence of events, in order. *)
Definition subscribe_requests (es : list event) : list (list Subscription) :=
  omap (λ e, match e with Subscribe subs => Some subs | _ => None end) es.

(** The publishes of a sequence of events, in order. *)
Definition published (es : list event) : list (string * pyobj * Z) :=
  omap (λ e, match e with
             | Publish t p q => Some (t, p, q)
             | _ => None
             end) es.

(** ** The feed object *)

Record CommunityMQTTFeed := {
  feed_url : string;
  feed_callbacks : gmap string (list callback);
  mqtt_version : Z;
  mqtt_broker_port : Z;
  default_QOS : Z;
  _mqtt_client : option Client;
  _device_credential : option string;
  _subscription_topics : gset string;
}.

Definition set_feed_callbacks (f : gmap string (list callback))
  (s : CommunityMQTTFeed) : CommunityMQTTFeed :=
  {| feed_url := feed_url s; feed_callbacks := f;
     mqtt_version := mqtt_version s; mqtt_broker_port := mqtt_broker_port s;
     default_QOS := default_QOS s; _mqtt_client := _mqtt_client s;
     _device_credential := _device_credential s;
     _subscription_topics := _subscription_topics s |}.

Definition set_mqtt_client (c : option Client)
  (s : CommunityMQTTFeed) : CommunityMQTTFeed :=
  {| feed_url := feed_url s; feed_callbacks := feed_callbacks s;
     mqtt_version := mqtt_version s; mqtt_broker_port := mqtt_broker_port s;
     default_QOS := default_QOS s; _mqtt_client := c;
     _device_credential := _device_credential s;
     _subscription_topics := _subscription_topics s |}.

Definition set_device_credential (c : option string)
  (s : CommunityMQTTFeed) : CommunityMQTTFeed :=
  {| feed_url := feed_url s; feed_callbacks := feed_callbacks s;
     mqtt_version := mqtt_version s; mqtt_broker_port := mqtt_broker_port s;
     default_QOS := default_QOS s; _mqtt_client := _mqtt_client s;
     _device_credential := c;
     _subscription_topics := _subscription_topics s |}.

Definition set_subscription_topics (t : gset string)
  (s : CommunityMQTTFeed) : CommunityMQTTFeed :=
  {| feed_url := feed_url s; feed_callbacks := feed_callbacks s;
     mqtt_version := mqtt_version s; mqtt_broker_port := mqtt_broker_port s;
     default_QOS := default_QOS s; _mqtt_client := _mqtt_client s;
     _device_credential := _device_credential s;
     _subscription_topics := t |}.

(** The feed together with everything it has done so far. *)
Record world := {
  self : CommunityMQTTFeed;
  trace : list event;
}.

(** Statements: a state transformer that returns or raises; what was done
    before a raise stays done. *)
Definition M (A : Type) : Type := world → result A * world.

#[global] Instance M_ret : MRet M := λ A a w, (Ok a, w).

#[global] Instance M_bind : MBind M := λ A B f m w,
  match m w with
  | (Ok a, w') => f a w'
  | (Raise e, w') => (Raise e, w')
  end.

Definition lift {A} (r : result A) : M A := λ w, (r, w).

(** The world [w] once the events [es] have happened. *)
Definition after (w : world) (es : list event) : world :=
  {| self := self w; trace := trace w ++ es |}.

Definition emit (e : event) : M unit :=
  λ w, (Ok tt, after w [e]).

Definition get : M CommunityMQTTFeed := λ w, (Ok (self w), w).

Definition modify (f : CommunityMQTTFeed → CommunityMQTTFeed) : M unit :=
  λ w, (Ok tt, {| self := f (self w); trace := trace w |}).

(** [try: body  except commons_errors.UnsupportedError as e: handler] *)
Definition try_except_UnsupportedError (body : M unit)
  (handler : string → M unit) : M unit :=
  λ w, match body w with
       | (Raise (UnsupportedError e), w') => handler e w'
       | r => r
       end.

(** [for x in xs: body x] *)
Fixpoint for_each {A} (xs : list A) (body : A → M unit) : M unit :=
  match xs with
  | [] => mret tt
  | x :: xs' => body x ;; for_each xs' body
  end.

(** ** class CommunityMQTTFeed(abstract_feed.AbstractFeed) *)

Section Feed.
Context `{PyLibs} `{Constants}.

Definition MQTT_VERSION : Z := MQTTv311.
Definition MQTT_BROKER_PORT : Z := 1883.

(** Modelled from the spec: [AbstractFeed.__init__] is not part of the
    sources; it stores [feed_url] and starts with an empty callback
    registry, whose entries are only created by [register_feed_callback]. *)
Definition __init__ (url : string) : CommunityMQTTFeed :=
  {| feed_url := url;
     feed_callbacks := ∅;
     mqtt_version := MQTT_VERSION;
     mqtt_broker_port := MQTT_BROKER_PORT;
     default_QOS := 1;
     _mqtt_client := None;
     _device_credential := None;
     _subscription_topics := ∅ |}.

(** [str(identifier)] inside the f-string: [None] prints as "None". *)
Definition format_identifier (identifier : option string) : string :=
  match identifier with
  | Some i => i
  | None => "None"
  end.

Definition _build_topic (channel_type : EnumMember)
  (identifier : option string) : string :=
  value channel_type +:+ "/" +:+ format_identifier identifier.

(** [self._mqtt_client.<method>]: attribute access on [None] raises. *)
Definition mqtt_client : M Client :=
  s ← get;
  match _mqtt_client s with
  | Some c => mret c
  | None => lift (Raise AttributeError)
  end.

(** [','.join(topics)] *)
Fixpoint join (sep : string) (l : list string) : string :=
  match l with
  | [] => EmptyString
  | [x] => x
  | x :: l' => x +:+ sep +:+ join sep l'
  end.

Definition _subscribe (topics : list string) : M unit :=
  match topics with
  | [] => emit (Log DEBUG No_topic_to_subscribe_to)
  | _ =>
      s ← get;
      let subscriptions :=
        map (λ t, {| topic := t; qos := default_QOS s; mid := None |}) topics in
      emit (Log DEBUG (Subscribing_to (join "," topics))) ;;
      _ ← mqtt_client;
      emit (Subscribe subscriptions)
  end.

(** [identifier not in self._subscription_topics]: the set holds strings,
    so [None] is never a member. *)
Definition not_in (identifier : option string) (topics : gset string) : bool :=
  match identifier with
  | Some i => bool_decide (i ∉ topics)
  | None => true
  end.

Definition register_feed_callback (channel_type : EnumMember)
  (cb : callback) (identifier : option string) : M unit :=
  let topic := _build_topic channel_type identifier in
  s ← get;
  (match feed_callbacks s !! topic with
   | Some l =>
       modify (set_feed_callbacks (<[topic := l ++ [cb]]> (feed_callbacks s)))
   | None =>
       modify (set_feed_callbacks (<[topic := [cb]]> (feed_callbacks s)))
   end) ;;
  s ← get;
  if not_in identifier (_subscription_topics s) then
    modify (set_subscription_topics ({[topic]} ∪ _subscription_topics s)) ;;
    _subscribe [topic]
  else mret tt.

Definition _fetch_device_credential : M unit :=
  modify (set_device_credential (Some "a8e68204-4c51-47c0-bb22-b24fae14d546")).

(** [json.loads(zlib.decompress(payload).decode())] *)
Definition decode (payload : bytes) : result pyobj :=
  match zlib_decompress payload with
  | Raise e => Raise e
  | Ok raw =>
      match bytes_decode raw with
      | Raise e => Raise e
      | Ok text => json_loads text
      end
  end.

Definition _ensure_supported (parsed_message : pyobj) : result unit :=
  match py_getitem parsed_message VERSION with
  | Raise e => Raise e
  | Ok v =>
      match LooseVersion.init v with
      | Raise e => Raise e
      | Ok version =>
          match LooseVersion.init (PStr COMMUNITY_FEED_CURRENT_MINIMUM_VERSION) with
          | Raise e => Raise e
          | Ok minimum =>
              match LooseVersion.lt version minimum with
              | Raise e => Raise e
              | Ok true =>
                  Raise (UnsupportedError
                    ("Minimum version: " +:+ COMMUNITY_FEED_CURRENT_MINIMUM_VERSION))
              | Ok false => Ok tt
              end
          end
      end
  end.

(** The generator over [self.feed_callbacks.get(topic, ())]; the list it
    walks is not touched while the callbacks run. *)
Definition _get_callbacks (topic : string) : M (list callback) :=
  s ← get;
  mret (default [] (feed_callbacks s !! topic)).

(** [await callback(parsed_message)] *)
Definition await (cb : callback) (arg : pyobj) : M unit :=
  emit (Await (cb_name cb) arg) ;;
  lift (cb_run cb arg).

Definition _on_message (client : Client) (topic : string) (payload : bytes)
  (qos : Z) (properties : pyobj) : M unit :=
  emit (Log DEBUG (RECV_MSG (_client_id client) topic payload qos)) ;;
  parsed_message ← lift (decode payload);
  try_except_UnsupportedError
    (lift (_ensure_supported parsed_message) ;;
     callbacks ← _get_callbacks topic;
     for_each callbacks (λ cb, await cb parsed_message))
    (λ e, emit (Log ERROR (Unsupported_message e))).

(** [commons_enums.CommunityChannelTypes(x)]: a member of the class is
    returned as it is, any other object is looked up among the values of the
    members (the first member wins on equal values), and [ValueError] is
    raised when there is none. *)
Definition enum_eqb (a b : EnumMember) : bool :=
  String.eqb (enum_class a) (enum_class b)
  && String.eqb (name a) (name b)
  && String.eqb (value a) (value b).

Definition enum_call (members : list EnumMember) (x : pyobj)
  : result EnumMember :=
  match x with
  | PEnum m => if existsb (enum_eqb m) members then Ok m else Raise ValueError
  | PStr v =>
      match List.find (λ m, String.eqb (value m) v) members with
      | Some m => Ok m
      | None => Raise ValueError
      end
  | _ => Raise ValueError
  end.

Definition _get_channel_type (message : pyobj) : result EnumMember :=
  match py_getitem message CHANNEL_TYPE with
  | Raise e => Raise e
  | Ok x => enum_call CommunityChannelTypes x
  end.

Definition _build_message (channel_type message : pyobj) : result pyobj :=
  if truthy message then
    match json_dumps
            (PDict (dict_set
                      (dict_set
                         (dict_set [] CHANNEL_TYPE channel_type)
                         VERSION (PStr COMMUNITY_FEED_CURRENT_MINIMUM_VERSION))
                      VALUE message)) with
    | Raise e => Raise e
    | Ok text => Ok (PBytes (zlib_compress (str_encode text)))
    end
  else Ok (PDict []).

Definition send (message : pyobj) (channel_type : EnumMember)
  (identifier : option string) : M unit :=
  _ ← mqtt_client;
  let topic := _build_topic channel_type identifier in
  payload ← lift (_build_message (PEnum channel_type) message);
  s ← get;
  emit (Publish topic payload (default_QOS s)).

(** The set is iterated in the order of [elements]. *)
Definition _on_connect (client : Client) (flags rc : Z) (properties : pyobj)
  : M unit :=
  emit (Log INFO (CONNECTED (_client_id client))) ;;
  s ← get;
  _subscribe (elements (_subscription_topics s)).

Definition _on_disconnect (client : Client) : M unit :=
  emit (Log INFO (DISCONNECTED (_client_id client))).

Definition _on_subscribe (client : Client) (mid : Z) (qos : list Z)
  (properties : pyobj) : M unit :=
  let subscriptions := get_subscriptions_by_mid client mid in
  for_each (zip subscriptions qos) (λ '(subscription, granted_qos),
    (if UNSPECIFIED_ERROR <=? granted_qos then
       emit (Log WARNING (RETRYING_SUB (_client_id client) mid granted_qos)) ;;
       emit (Resubscribe subscription)
     else mret tt) ;;
    emit (Log INFO (SUBSCRIBED (_client_id client) mid granted_qos))).

(** The client the feed creates, before and after [connect] returns. *)
Definition new_client (connected : bool) : Client :=
  {| _client_id := "CommunityMQTTFeed"; is_connected := connected;
     subscriptions := [] |}.

Definition _connect : M unit :=
  s ← get;
  modify (set_mqtt_client (Some (new_client false))) ;;
  emit (SetAuthCredentials (_device_credential s)) ;;
  emit (Log DEBUG Connecting_client) ;;
  emit (Connect (feed_url s) (mqtt_broker_port s) MQTT_VERSION) ;;
  modify (set_mqtt_client (Some (new_client true))).

Definition start : M unit :=
  _fetch_device_credential ;;
  _connect.

Definition stop : M unit :=
  s ← get;
  match _mqtt_client s with
  | Some c =>
      if is_connected c then
        emit Disconnect ;;
        modify (set_mqtt_client
                  (Some {| _client_id := _client_id c; is_connected := false;
                           subscriptions := subscriptions c |}))
      else mret tt
  | None => mret tt
  end.

(** The callers of the feed: the application, through the public
    coroutines, and the gmqtt client, through the four handlers that
    [_register_callbacks] installs on it. *)
Inductive call :=
| Start
| Stop
| Register (channel_type : EnumMember) (cb : callback)
           (identifier : option string)
| Send (message : pyobj) (channel_type : EnumMember)
       (identifier : option string)
| OnConnect (client : Client) (flags rc : Z) (properties : pyobj)
| OnMessage (client : Client) (topic : string) (payload : bytes) (qos : Z)
            (properties : pyobj)
| OnDisconnect (client : Client)
| OnSubscribe (client : Client) (mid : Z) (qos : list Z) (properties : pyobj).

Definition run (c : call) : M unit :=
  match c with
  | Start => start
  | Stop => stop
  | Register channel_type cb identifier =>
      register_feed_callback channel_type cb identifier
  | Send message channel_type identifier =>
      send message channel_type identifier
  | OnConnect client flags rc properties =>
      _on_connect client flags rc properties
  | OnMessage client topic payload qos properties =>
      _on_message client topic payload qos properties
  | OnDisconnect client => _on_disconnect client
  | OnSubscribe client mid qos properties =>
      _on_subscribe client mid qos properties
  end.

(** Calls made one after the other on the same feed; an exception of one
    call goes to its caller and the feed lives on. *)
Fixpoint session (calls : list call) (w : world) : world :=
  match calls with
  | [] => w
  | c :: calls' => session calls' (snd (run c w))
  end.

(** A caller that registers one callback after the other. *)
Definition register_all
  (registrations : list (EnumMember * callback * option string)) : M unit :=
  for_each registrations (λ '(channel_type, cb, identifier),
    register_feed_callback channel_type cb identifier).

Definition topic_of (r : EnumMember * callback * option string) : string :=
  _build_topic r.1.1 r.2.

End Feed.

(** ** A reference implementation of the libraries

    Used to run the feed on concrete inputs. The compressor emits a zlib
    stream (RFC 1950) of stored deflate blocks, which any zlib inflates; the
    decompressor reads the zlib container and stored blocks, and reports
    Huffman-coded blocks, which this compressor never emits, as an error.
    The JSON printer follows [json.dumps] with its default arguments, the
    parser follows [json.loads] on documents without floating-point
    numbers. Strings are sequences of code points below 256. *)

Module Reference.

Definition byte_of (n : N) : byte :=
  default x00 (Byte.of_N (n mod 256)%N).

Definition adler32 (data : bytes) : N :=
  let '(a, b) :=
    fold_left (λ '(a, b) x,
                 let a' := ((a + Byte.to_N x) mod 65521)%N in
                 (a', ((b + a') mod 65521)%N))
              data (1%N, 0%N) in
  (b * 65536 + a)%N.

Definition be32 (n : N) : bytes :=
  [byte_of (n / 16777216); byte_of (n / 65536); byte_of (n / 256); byte_of n].

Definition le16 (n : N) : bytes :=
  [byte_of n; byte_of (n / 256)].

Fixpoint stored_blocks (fuel : nat) (data : bytes) : bytes :=
  let len := N.of_nat (length data) in
  match fuel with
  | O => x01 :: le16 0 ++ le16 65535
  | S fuel' =>
      if (len <=? 65535)%N then
        x01 :: le16 len ++ le16 (65535 - len) ++ data
      else
        x00 :: le16 65535 ++ le16 0 ++ take (N.to_nat 65535) data
            ++ stored_blocks fuel' (drop (N.to_nat 65535) data)
  end.

Definition compress (data : bytes) : bytes :=
  x78 :: x01 :: stored_blocks (length data) data ++ be32 (adler32 data).

Fixpoint inflate_stored (fuel : nat) (input : bytes) : option (bytes * bytes) :=
  match fuel, input with
  | S fuel', hdr :: l0 :: l1 :: n0 :: n1 :: rest =>
      let h := Byte.to_N hdr in
      let len := (Byte.to_N l0 + 256 * Byte.to_N l1)%N in
      let nlen := (Byte.to_N n0 + 256 * Byte.to_N n1)%N in
      if negb ((h / 2) mod 4 =? 0)%N then None
      else if negb (len + nlen =? 65535)%N then None
      else if (N.of_nat (length rest) <? len)%N then None
      else
        let chunk := take (N.to_nat len) rest in
        let rest' := drop (N.to_nat len) rest in
        if N.odd h then Some (chunk, rest')
        else match inflate_stored fuel' rest' with
             | Some (more, rest'') => Some (chunk ++ more, rest'')
             | None => None
             end
  | _, _ => None
  end.

Definition decompress (input : bytes) : result bytes :=
  match input with
  | cmf :: flg :: body =>
      let c := Byte.to_N cmf in
      let f := Byte.to_N flg in
      if negb (c mod 16 =? 8)%N || (7 <? c / 16)%N
         || negb ((c * 256 + f) mod 31 =? 0)%N || N.testbit f 5
      then Raise ZlibError
      else match inflate_stored (length body) body with
           | Some (data, a3 :: a2 :: a1 :: a0 :: _) =>
               if (adler32 data =?
                   ((Byte.to_N a3 * 256 + Byte.to_N a2) * 256 + Byte.to_N a1) * 256
                   + Byte.to_N a0)%N
               then Ok data else Raise ZlibError
           | _ => Raise ZlibError
           end
  | _ => Raise ZlibError
  end.

(** UTF-8 for code points below 256. *)
Fixpoint encode (s : string) : bytes :=
  match s with
  | EmptyString => []
  | String c s' =>
      let n := N_of_ascii c in
      if (n <? 128)%N then byte_of n :: encode s'
      else byte_of (192 + n / 64) :: byte_of (128 + n mod 64) :: encode s'
  end.

Fixpoint decode_utf8 (fuel : nat) (b : bytes) : result string :=
  match fuel, b with
  | _, [] => Ok EmptyString
  | O, _ => Raise UnicodeDecodeError
  | S fuel', x :: b' =>
      let n := Byte.to_N x in
      if (n <? 128)%N then
        match decode_utf8 fuel' b' with
        | Ok s => Ok (String (ascii_of_N n) s)
        | Raise e => Raise e
        end
      else if ((194 <=? n) && (n <=? 195))%N then
        match b' with
        | y :: b'' =>
            let m := Byte.to_N y in
            if ((128 <=? m) && (m <? 192))%N then
              match decode_utf8 fuel' b'' with
              | Ok s => Ok (String (ascii_of_N ((n - 192) * 64 + (m - 128))) s)
              | Raise e => Raise e
              end
            else Raise UnicodeDecodeError
        | [] => Raise UnicodeDecodeError
        end
      else Raise UnicodeDecodeError
  end.

Definition quote : ascii := "034"%char.

Definition hex_digit (n : N) : ascii :=
  if (n <? 10)%N then ascii_of_N (48 + n) else ascii_of_N (87 + n).

(** [ensure_ascii=True]: everything outside [' '..'~'] is escaped. *)
Definition escape_char (c : ascii) : string :=
  let n := N_of_ascii c in
  if (n =? 34)%N then String "092"%char (String quote EmptyString)
  else if (n =? 92)%N then "\\"
  else if (n =? 10)%N then "\n"
  else if (n =? 13)%N then "\r"
  else if (n =? 9)%N then "\t"
  else if (n =? 8)%N then "\b"
  else if (n =? 12)%N then "\f"
  else if ((32 <=? n) && (n <=? 126))%N then String c EmptyString
  else "\u00" +:+ String (hex_digit (n / 16)) (String (hex_digit (n mod 16)) EmptyString).

Fixpoint escape (s : string) : string :=
  match s with
  | EmptyString => EmptyString
  | String c s' => escape_char c +:+ escape s'
  end.

Definition dump_str (s : string) : string :=
  String quote (escape s +:+ String quote EmptyString).

Definition dump_int (z : Z) : string :=
  NilZero.string_of_int (Z.to_int z).

Fixpoint dumps (o : pyobj) : result string :=
  match o with
  | PNone => Ok "null"
  | PBool true => Ok "true"
  | PBool false => Ok "false"
  | PInt z => Ok (dump_int z)
  | PStr s => Ok (dump_str s)
  | PBytes _ => Raise TypeError
  | PEnum _ => Raise TypeError
  | PList l =>
      match (fix items (l : list pyobj) : result (list string) :=
               match l with
               | [] => Ok []
               | x :: l' =>
                   match dumps x, items l' with
                   | Ok a, Ok b => Ok (a :: b)
                   | Raise e, _ => Raise e
                   | _, Raise e => Raise e
                   end
               end) l with
      | Ok parts => Ok ("[" +:+ join ", " parts +:+ "]")
      | Raise e => Raise e
      end
  | PDict d =>
      match (fix items (d : list (string * pyobj)) : result (list string) :=
               match d with
               | [] => Ok []
               | (k, x) :: d' =>
                   match dumps x, items d' with
                   | Ok a, Ok b => Ok ((dump_str k +:+ ": " +:+ a) :: b)
                   | Raise e, _ => Raise e
                   | _, Raise e => Raise e
                   end
               end) d with
      | Ok parts => Ok ("{" +:+ join ", " parts +:+ "}")
      | Raise e => Raise e
      end
  end.

Definition is_ws (c : ascii) : bool :=
  let n := N_of_ascii c in
  (n =? 32)%N || (n =? 9)%N || (n =? 10)%N || (n =? 13)%N.

Fixpoint skip_ws (s : string) : string :=
  match s with
  | String c s' => if is_ws c then skip_ws s' else s
  | EmptyString => s
  end.

Definition hex_value (c : ascii) : option N :=
  let n := N_of_ascii c in
  if ((48 <=? n) && (n <=? 57))%N then Some (n - 48)%N
  else if ((97 <=? n) && (n <=? 102))%N then Some (n - 87)%N
  else if ((65 <=? n) && (n <=? 70))%N then Some (n - 55)%N
  else None.

(** The body of a string literal, after the opening quote. *)
Fixpoint parse_string (s : string) : option (string * string) :=
  match s with
  | EmptyString => None
  | String c s' =>
      let n := N_of_ascii c in
      if (n =? 34)%N then Some (EmptyString, s')
      else if (n <? 32)%N then None
      else if (n =? 92)%N then
        match s' with
        | String e s'' =>
            let simple (x : N) :=
              match parse_string s'' with
              | Some (t, r) => Some (String (ascii_of_N x) t, r)
              | None => None
              end in
            match e with
            | "034"%char => simple 34%N
            | "092"%char => simple 92%N
            | "/"%char => simple 47%N
            | "b"%char => simple 8%N
            | "f"%char => simple 12%N
            | "n"%char => simple 10%N
            | "r"%char => simple 13%N
            | "t"%char => simple 9%N
            | "u"%char =>
                match s'' with
                | String h3 (String h2 (String h1 (String h0 s3))) =>
                    match hex_value h3, hex_value h2, hex_value h1, hex_value h0 with
                    | Some 0%N, Some 0%N, Some a, Some b =>
                        match parse_string s3 with
                        | Some (t, r) => Some (String (ascii_of_N (16 * a + b)) t, r)
                        | None => None
                        end
                    | _, _, _, _ => None
                    end
                | _ => None
                end
            | _ => None
            end
        | EmptyString => None
        end
      else
        match parse_string s' with
        | Some (t, r) => Some (String c t, r)
        | None => None
        end
  end.

Fixpoint parse_digits (acc : N) (s : string) : N * string :=
  match s with
  | String c s' =>
      if is_digit c then parse_digits (10 * acc + (N_of_ascii c - 48))%N s'
      else (acc, s)
  | EmptyString => (acc, s)
  end.

(** An optional minus sign, then 0 or a number without leading zeros; a
    fraction or an exponent makes a float, which is not a value of [pyobj]. *)
Definition starts_float_part (s : string) : bool :=
  match s with
  | String "."%char (String d _) => is_digit d
  | String e (String d r) =>
      if (Ascii.eqb e "e" || Ascii.eqb e "E")%char then
        is_digit d ||
        ((Ascii.eqb d "+" || Ascii.eqb d "-")%char &&
         match r with String d' _ => is_digit d' | _ => false end)
      else false
  | _ => false
  end.

Definition parse_number (s : string) : option (pyobj * string) :=
  let '(neg, s1) :=
    match s with
    | String "-"%char r => (true, r)
    | _ => (false, s)
    end in
  match s1 with
  | String c r =>
      if is_digit c then
        let '(n, rest) :=
          if Ascii.eqb c "0" then (0%N, r) else parse_digits 0 s1 in
        if starts_float_part rest then None
        else Some (PInt (if neg then - Z.of_N n else Z.of_N n), rest)
      else None
  | EmptyString => None
  end.

Definition expect (word : string) (v : pyobj) (s : string)
  : option (pyobj * string) :=
  if String.prefix word s
  then Some (v, String.substring (String.length word)
                                 (String.length s - String.length word) s)
  else None.

Fixpoint parse_value (fuel : nat) (s : string) : option (pyobj * string) :=
  match fuel with
  | O => None
  | S fuel' =>
      match s with
      | String "n"%char _ => expect "null" PNone s
      | String "t"%char _ => expect "true" (PBool true) s
      | String "f"%char _ => expect "false" (PBool false) s
      | String "034"%char r =>
          match parse_string r with
          | Some (t, r') => Some (PStr t, r')
          | None => None
          end
      | String "["%char r =>
          match skip_ws r with
          | String "]"%char r' => Some (PList [], r')
          | r' => parse_array fuel' r' []
          end
      | String "{"%char r =>
          match skip_ws r with
          | String "}"%char r' => Some (PDict [], r')
          | r' => parse_object fuel' r' []
          end
      | _ => parse_number s
      end
  end
with parse_array (fuel : nat) (s : string) (acc : list pyobj)
  : option (pyobj * string) :=
  match fuel with
  | O => None
  | S fuel' =>
      match parse_value fuel' s with
      | Some (v, r) =>
          match skip_ws r with
          | String ","%char r' => parse_array fuel' (skip_ws r') (acc ++ [v])%list
          | String "]"%char r' => Some (PList (acc ++ [v])%list, r')
          | _ => None
          end
      | None => None
      end
  end
with parse_object (fuel : nat) (s : string) (acc : list (string * pyobj))
  : option (pyobj * string) :=
  match fuel with
  | O => None
  | S fuel' =>
      match s with
      | String "034"%char r =>
          match parse_string r with
          | Some (k, r1) =>
              match skip_ws r1 with
              | String ":"%char r2 =>
                  match parse_value fuel' (skip_ws r2) with
                  | Some (v, r3) =>
                      match skip_ws r3 with
                      | String ","%char r4 =>
                          parse_object fuel' (skip_ws r4) (dict_set acc k v)
                      | String "}"%char r4 => Some (PDict (dict_set acc k v), r4)
                      | _ => None
                      end
                  | None => None
                  end
              | _ => None
              end
          | None => None
          end
      | _ => None
      end
  end.

Definition loads (s : string) : result pyobj :=
  match parse_value (S (String.length s)) (skip_ws s) with
  | Some (v, r) =>
      match skip_ws r with
      | EmptyString => Ok v
      | _ => Raise JSONDecodeError
      end
  | None => Raise JSONDecodeError
  end.

#[export] Instance libs : PyLibs := {|
  zlib_compress := compress;
  zlib_decompress := decompress;
  json_dumps := dumps;
  json_loads := loads;
  str_encode := encode;
  bytes_decode := λ b, decode_utf8 (length b) b;
|}.

(** Values for the constants: the minimum version "1.0.0", three distinct
    attribute names, one channel type, and the codes of MQTT (return code
    0x80 and above is a failure, protocol level 4 is MQTT 3.1.1). *)
#[export] Instance consts : Constants := {|
  COMMUNITY_FEED_CURRENT_MINIMUM_VERSION := "1.0.0";
  CHANNEL_TYPE := "c";
  VERSION := "v";
  VALUE := "s";
  CommunityChannelTypes :=
    [{| enum_class := "CommunityChannelTypes"; name := "SIGNAL";
        value := "Signal" |}];
  UNSPECIFIED_ERROR := 128;
  MQTTv311 := 4;
|}.

End Reference.

(** ** Reading a run *)

(** The events that are calls on the gmqtt client. *)
Definition transport_call (e : event) : bool :=
  match e with
  | Log _ _ | Await _ _ => false
  | _ => true
  end.

(** A statement that leaves the feed as it is and only adds events that
    satisfy [P] (which may look at the feed). *)
Definition emits {A} (P : CommunityMQTTFeed → event → Prop) (m : M A) : Prop :=
  ∀ w, ∃ es, snd (m w) = after w es ∧ Forall (P (self w)) es.

(** What holds of the registry and the subscribed set of a feed: a
    subscribed topic has a callback, no list of the registry is empty, and
    the QoS and the port are the ones of the class. *)
Definition consistent (s : CommunityMQTTFeed) : Prop :=
  (∀ t, t ∈ _subscription_topics s →
        ∃ cb cbs, feed_callbacks s !! t = Some (cb :: cbs))
  ∧ (∀ t l, feed_callbacks s !! t = Some l → l ≠ [])
  ∧ default_QOS s = 1
  ∧ mqtt_broker_port s = 1883.

(** What holds of a call on the transport made by a feed in state [s]. *)
Definition well_formed_call (s : CommunityMQTTFeed) (e : event) : Prop :=
  match e with
  | Subscribe subs =>
      subs ≠ []
      ∧ ∀ sub, sub ∈ subs →
               qos sub = default_QOS s ∧ mid sub = None
               ∧ topic sub ∈ _subscription_topics s
  | Publish _ payload q =>
      q = default_QOS s ∧ (payload = PDict [] ∨ ∃ b, payload = PBytes b)
  | _ => True
  end.

Fixpoint no_slash (s : string) : bool :=
  match s with
  | EmptyString => true
  | String c s' => negb (Ascii.eqb c "/") && no_slash s'
  end.

(** ** What the specification names *)

(** A version "major.minor.patch": three non-empty runs of decimal digits. *)
Fixpoint all_digits (s : string) : bool :=
  match s with
  | EmptyString => true
  | String c s' => is_digit c && all_digits s'
  end.

Definition is_number (s : string) : bool :=
  negb (String.eqb s EmptyString) && all_digits s.

Definition semver_string (major minor patch : string) : string :=
  major +:+ "." +:+ minor +:+ "." +:+ patch.

(** The ordering of semantic versions: major, then minor, then patch. *)
Definition semver_lt (a b : N * N * N) : bool :=
  let '(a1, a2, a3) := a in
  let '(b1, b2, b3) := b in
  ((a1 <? b1) || ((a1 =? b1) && ((a2 <? b2) || ((a2 =? b2) && (a3 <? b3)))))%N.

Definition semver_value (major minor patch : string) : N * N * N :=
  (LooseVersion.int_of_digits 0 major,
   LooseVersion.int_of_digits 0 minor,
   LooseVersion.int_of_digits 0 patch).

(** ** Objects used in the examples *)

Module Sample.
Import Reference.

Definition SIGNAL : EnumMember :=
  {| enum_class := "CommunityChannelTypes"; name := "SIGNAL"; value := "Signal" |}.

Definition price : EnumMember :=
  {| enum_class := "CommunityChannelTypes"; name := "PRICE"; value := "price" |}.

Definition on_signal : callback :=
  {| cb_name := "on_signal"; cb_run := λ _, Ok tt |}.

Definition on_signal_too : callback :=
  {| cb_name := "on_signal_too"; cb_run := λ _, Ok tt |}.

Definition broker : Client :=
  {| _client_id := "CommunityMQTTFeed"; is_connected := true;
     subscriptions :=
       [ {| topic := "Signal/A"; qos := 1; mid := Some 7 |};
         {| topic := "Signal/B"; qos := 1; mid := Some 7 |};
         {| topic := "Signal/C"; qos := 1; mid := Some 8 |} ] |}.

(** A feed that was created and not started, and the same feed after
    [start]. *)
Definition created : world :=
  {| self := __init__ "mqtt.example.org"; trace := [] |}.

Definition started : world := snd (start created).

(** The wire form of a JSON document. *)
Definition wire (text : string) : bytes :=
  zlib_compress (str_encode text).

Definition message_of_version (v : string) : pyobj :=
  PDict [("c", PStr "Signal"); ("v", PStr v); ("s", PDict [("price", PInt 42)])].

(** [json.dumps(o)] when it returns. *)
Definition text_of (o : pyobj) : string :=
  match json_dumps o with
  | Ok text => text
  | Raise _ => EmptyString
  end.

Definition payload_of_version (v : string) : bytes :=
  wire (text_of (message_of_version v)).

(** The started feed after two callbacks were registered for "Signal/A". *)
Definition listening : world :=
  snd ((register_feed_callback SIGNAL on_signal (Some "A") ;;
        register_feed_callback SIGNAL on_signal_too (Some "A")) started).

(** The started feed after one registration with the identifier "x" and one
    with the identifier "price/x". *)
Definition nested : world :=
  snd ((register_feed_callback price on_signal (Some "x") ;;
        register_feed_callback price on_signal_too (Some "price/x")) started).

Definition subscription (t : string) : Subscription :=
  {| topic := t; qos := 1; mid := None |}.

(** Callbacks that raise. *)
Definition failing : callback :=
  {| cb_name := "failing"; cb_run := λ _, Raise (OtherError "RuntimeError") |}.

Definition refusing : callback :=
  {| cb_name := "refusing";
     cb_run := λ _, Raise (UnsupportedError "not for me") |}.

(** The started feed with three callbacks for "Signal/A", the second of
    which raises. *)
Definition fragile (second : callback) : world :=
  snd ((register_feed_callback SIGNAL on_signal (Some "A") ;;
        register_feed_callback SIGNAL second (Some "A") ;;
        register_feed_callback SIGNAL on_signal_too (Some "A")) started).

(** The wire form of a document that is not an envelope. *)
Definition payload_of (o : pyobj) : bytes := wire (text_of o).

(** Registrations with a repetition. *)
Definition registrations : list (EnumMember * callback * option string) :=
  [(SIGNAL, on_signal, Some "A"); (SIGNAL, on_signal_too, Some "A");
   (price, on_signal, Some "x")].

End Sample.

(** * Properties *)

(** ** LooseVersion on major.minor.patch strings *)

Example parse_1_0_0 :
  LooseVersion.parse "1.0.0" =
  [LooseVersion.CInt 1; LooseVersion.CInt 0; LooseVersion.CInt 0].
Proof. reflexivity. Qed.

Example parse_loose :
  LooseVersion.parse "1.5.2b2-rc" =
  [LooseVersion.CInt 1; LooseVersion.CInt 5; LooseVersion.CInt 2;
   LooseVersion.CStr "b"; LooseVersion.CInt 2; LooseVersion.CStr "-";
   LooseVersion.CStr "rc"].
Proof. reflexivity. Qed.

Lemma append_empty_r (s : string) : s +:+ EmptyString = s.
Proof.
  induction s as [|x s IH]; [done|].
  change (String x (s +:+ EmptyString) = String x s). by rewrite IH.
Qed.

Lemma classify_digit c : is_digit c = true → LooseVersion.classify c = LooseVersion.Digit.
Proof. intros Hc. unfold LooseVersion.classify. by rewrite Hc. Qed.

Lemma split_dot r :
  LooseVersion.split ("." +:+ r) =
  (LooseVersion.Dot, ".") :: LooseVersion.split r.
Proof. reflexivity. Qed.

(** A run of digits that ends the string or stops at a dot is one piece. *)
Lemma split_number d rest :
  is_number d = true →
  (rest = EmptyString ∨ ∃ r, rest = "." +:+ r) →
  LooseVersion.split (d +:+ rest) =
  (LooseVersion.Digit, d) :: LooseVersion.split rest.
Proof.
  intros Hd Hrest. unfold is_number in Hd.
  apply andb_true_iff in Hd as [Hne Hall].
  induction d as [|c d IH]; [discriminate|].
  simpl in Hall. apply andb_true_iff in Hall as [Hc Hall].
  change (String c d +:+ rest) with (String c (d +:+ rest)).
  cbn [LooseVersion.split]. rewrite (classify_digit c Hc).
  destruct d as [|c' d'].
  - change (EmptyString +:+ rest) with rest.
    destruct Hrest as [->|[r ->]]; [reflexivity|].
    rewrite split_dot. reflexivity.
  - rewrite IH by done. reflexivity.
Qed.

Lemma parse_semver a b c :
  is_number a = true → is_number b = true → is_number c = true →
  LooseVersion.parse (semver_string a b c) =
  [LooseVersion.CInt (LooseVersion.int_of_digits 0 a);
   LooseVersion.CInt (LooseVersion.int_of_digits 0 b);
   LooseVersion.CInt (LooseVersion.int_of_digits 0 c)].
Proof.
  intros Ha Hb Hc. unfold LooseVersion.parse, semver_string.
  rewrite (split_number a) by eauto.
  rewrite split_dot.
  rewrite (split_number b) by eauto.
  rewrite split_dot.
  pose proof (split_number c EmptyString Hc (or_introl eq_refl)) as E.
  rewrite append_empty_r in E. rewrite E. reflexivity.
Qed.

Lemma semver_string_truthy a b c :
  is_number a = true → truthy (PStr (semver_string a b c)) = true.
Proof. destruct a; [discriminate|reflexivity]. Qed.

(** On three integer components [LooseVersion]'s [<] is the ordering of
    semantic versions. *)
Lemma lt_semver a1 a2 a3 b1 b2 b3 :
  LooseVersion.lt
    {| LooseVersion.version :=
         Some [LooseVersion.CInt a1; LooseVersion.CInt a2; LooseVersion.CInt a3] |}
    {| LooseVersion.version :=
         Some [LooseVersion.CInt b1; LooseVersion.CInt b2; LooseVersion.CInt b3] |}
  = Ok (semver_lt (a1, a2, a3) (b1, b2, b3)).
Proof.
  unfold LooseVersion.lt, LooseVersion._cmp, semver_lt. cbn.
  repeat (match goal with
          | |- context [N.eqb ?x ?y] => destruct (N.eqb_spec x y); cbn
          | |- context [N.ltb ?x ?y] => destruct (N.ltb_spec x y); cbn
          end);
    try reflexivity; lia.
Qed.

Lemma init_semver a b c :
  is_number a = true → is_number b = true → is_number c = true →
  LooseVersion.init (PStr (semver_string a b c)) =
  Ok {| LooseVersion.version :=
          Some [LooseVersion.CInt (LooseVersion.int_of_digits 0 a);
                LooseVersion.CInt (LooseVersion.int_of_digits 0 b);
                LooseVersion.CInt (LooseVersion.int_of_digits 0 c)] |}.
Proof.
  intros Ha Hb Hc. unfold LooseVersion.init.
  rewrite (semver_string_truthy a b c Ha). by rewrite parse_semver.
Qed.

Lemma union_insert_commute (t : string) (R T : gset string) :
  R ∪ ({[t]} ∪ T) = ({[t]} ∪ R) ∪ T.
Proof. apply set_eq. intros x. rewrite !elem_of_union. tauto. Qed.

Section FeedFacts.
Context `{PyLibs} `{Constants}.

(** Unfolds one layer of the statement monad. *)
Ltac step :=
  unfold mbind, M_bind, mret, M_ret, lift, emit, get, modify; cbn.

Lemma ensure_supported_semver parsed a b c ma mb mc :
  is_number a = true → is_number b = true → is_number c = true →
  is_number ma = true → is_number mb = true → is_number mc = true →
  COMMUNITY_FEED_CURRENT_MINIMUM_VERSION = semver_string ma mb mc →
  py_getitem parsed VERSION = Ok (PStr (semver_string a b c)) →
  _ensure_supported parsed =
  if semver_lt (semver_value a b c) (semver_value ma mb mc)
  then Raise (UnsupportedError
                ("Minimum version: " +:+ COMMUNITY_FEED_CURRENT_MINIMUM_VERSION))
  else Ok tt.
Proof.
  intros Ha Hb Hc Hma Hmb Hmc Hmin Hv.
  unfold _ensure_supported. rewrite Hv.
  rewrite !init_semver by done. rewrite Hmin at 1.
  rewrite init_semver by done. rewrite lt_semver.
  unfold semver_value. by destruct (semver_lt _ _).
Qed.

Lemma after_nil w : after w [] = w.
Proof. destruct w. unfold after. cbn. by rewrite app_nil_r. Qed.

Lemma after_after w es es' : after (after w es) es' = after w (es ++ es').
Proof. unfold after. cbn. by rewrite app_assoc. Qed.

Lemma for_each_await_ok (cbs : list callback) (arg : pyobj) (w : world) :
  Forall (λ cb, cb_run cb arg = Ok tt) cbs →
  for_each cbs (λ cb, await cb arg) w =
  (Ok tt, after w (map (λ cb, Await (cb_name cb) arg) cbs)).
Proof.
  intros Hall. revert w. induction Hall as [|cb cbs Hcb _ IH]; intros w.
  - cbn. by rewrite after_nil.
  - cbn [for_each]. unfold await. step. rewrite Hcb. rewrite IH.
    by rewrite after_after.
Qed.

(** The loop stops at the first callback that raises: the callbacks before
    it and itself have been awaited, the ones after it have not. *)
Lemma for_each_await_raises (before rest : list callback) (cb : callback)
    (arg : pyobj) (e : exn) (w : world) :
  Forall (λ cb, cb_run cb arg = Ok tt) before →
  cb_run cb arg = Raise e →
  for_each (before ++ cb :: rest) (λ cb, await cb arg) w =
  (Raise e,
   after w (map (λ cb, Await (cb_name cb) arg) (before ++ [cb]))).
Proof.
  intros Hall Hcb. revert w.
  induction Hall as [|cb' before Hcb' _ IH]; intros w.
  - cbn [app for_each]. unfold await. step. by rewrite Hcb.
  - cbn [app for_each]. unfold await. step. rewrite Hcb'.
    change (for_each (before ++ cb :: rest) (λ cb, await cb arg)
              (after w [Await (cb_name cb') arg])
            = (Raise e,
               after w (Await (cb_name cb') arg
                        :: map (λ cb, Await (cb_name cb) arg) (before ++ [cb])))).
    rewrite IH. by rewrite after_after.
Qed.

(** *** The message handler *)

Lemma on_message_decoded client topic payload qos properties w parsed :
  decode payload = Ok parsed →
  _on_message client topic payload qos properties w =
  try_except_UnsupportedError
    (lift (_ensure_supported parsed) ;;
     callbacks ← _get_callbacks topic;
     for_each callbacks (λ cb, await cb parsed))
    (λ e, emit (Log ERROR (Unsupported_message e)))
    (after w [Log DEBUG (RECV_MSG (_client_id client) topic payload qos)]).
Proof. intros Hd. unfold _on_message. step. by rewrite Hd. Qed.

(** C1, as amended: a payload that fails to decode makes the handler raise
    the decoding error. It is not caught: the handler has logged the
    reception at debug level and nothing else, no callback is awaited, the
    feed is unchanged. *)
Theorem decode_failure_propagates client topic payload qos properties w e :
  decode payload = Raise e →
  _on_message client topic payload qos properties w =
  (Raise e,
   after w [Log DEBUG (RECV_MSG (_client_id client) topic payload qos)]).
Proof. intros Hd. unfold _on_message. step. by rewrite Hd. Qed.

(** C3: for an envelope whose version and the minimum version are
    major.minor.patch strings, [_ensure_supported] raises [UnsupportedError]
    exactly when the envelope's version is below the minimum in the ordering
    of semantic versions. Then the handler logs the message as unsupported
    and returns: nothing is awaited, nothing is sent to the transport.
    Otherwise the check passes and the message goes to the callbacks of its
    topic. *)
Theorem version_gate client topic payload qos properties w parsed
    a b c ma mb mc :
  is_number a = true → is_number b = true → is_number c = true →
  is_number ma = true → is_number mb = true → is_number mc = true →
  COMMUNITY_FEED_CURRENT_MINIMUM_VERSION = semver_string ma mb mc →
  decode payload = Ok parsed →
  py_getitem parsed VERSION = Ok (PStr (semver_string a b c)) →
  let received := Log DEBUG (RECV_MSG (_client_id client) topic payload qos) in
  let minimum := "Minimum version: " +:+ COMMUNITY_FEED_CURRENT_MINIMUM_VERSION in
  (_ensure_supported parsed = Raise (UnsupportedError minimum)
   ↔ semver_lt (semver_value a b c) (semver_value ma mb mc) = true)
  ∧ (semver_lt (semver_value a b c) (semver_value ma mb mc) = true →
     _on_message client topic payload qos properties w =
     (Ok tt, after w [received; Log ERROR (Unsupported_message minimum)]))
  ∧ (semver_lt (semver_value a b c) (semver_value ma mb mc) = false →
     _ensure_supported parsed = Ok tt
     ∧ _on_message client topic payload qos properties w =
       try_except_UnsupportedError
         (for_each (default [] (feed_callbacks (self w) !! topic))
                   (λ cb, await cb parsed))
         (λ e, emit (Log ERROR (Unsupported_message e)))
         (after w [received])).
Proof.
  intros Ha Hb Hc Hma Hmb Hmc Hmin Hd Hv received minimum.
  pose proof (ensure_supported_semver parsed a b c ma mb mc
                Ha Hb Hc Hma Hmb Hmc Hmin Hv) as Hens.
  fold minimum in Hens.
  split; [|split].
  - rewrite Hens. destruct (semver_lt _ _); split; congruence.
  - intros Hlt. rewrite Hlt in Hens.
    rewrite (on_message_decoded _ _ _ _ _ _ _ Hd).
    unfold try_except_UnsupportedError. step. rewrite Hens.
    by rewrite after_after.
  - intros Hlt. rewrite Hlt in Hens. split; [done|].
    rewrite (on_message_decoded _ _ _ _ _ _ _ Hd).
    unfold try_except_UnsupportedError, _get_callbacks. step.
    by rewrite Hens.
Qed.

Lemma register_feed_callback_callbacks channel_type cb identifier w :
  feed_callbacks (self (snd (register_feed_callback channel_type cb identifier w)))
  = <[_build_topic channel_type identifier :=
        default [] (feed_callbacks (self w) !! _build_topic channel_type identifier)
        ++ [cb]]> (feed_callbacks (self w)).
Proof.
  unfold register_feed_callback, _subscribe, mqtt_client. step.
  destruct (feed_callbacks (self w) !! _build_topic channel_type identifier);
    step; destruct (not_in identifier _); step; try done;
    destruct (_mqtt_client (self w)); done.
Qed.

(** C7: a message that decodes and passes the version check is handed to the
    callbacks of its topic one after the other, in the order of the
    registry's list, and the handler returns; with no callback for the
    topic nothing is awaited and the handler returns as well. The registry's
    list is in registration order: registering appends. (The callbacks
    are taken to return.) *)
Theorem callbacks_in_registration_order client topic payload qos properties w parsed :
  decode payload = Ok parsed →
  _ensure_supported parsed = Ok tt →
  let received := Log DEBUG (RECV_MSG (_client_id client) topic payload qos) in
  let callbacks := default [] (feed_callbacks (self w) !! topic) in
  (Forall (λ cb, cb_run cb parsed = Ok tt) callbacks →
   _on_message client topic payload qos properties w =
   (Ok tt, after w (received :: map (λ cb, Await (cb_name cb) parsed) callbacks)))
  ∧ (feed_callbacks (self w) !! topic = None →
     _on_message client topic payload qos properties w = (Ok tt, after w [received]))
  ∧ (∀ channel_type cb identifier,
       feed_callbacks
         (self (snd (register_feed_callback channel_type cb identifier w)))
       !! _build_topic channel_type identifier
       = Some (default [] (feed_callbacks (self w)
                             !! _build_topic channel_type identifier) ++ [cb])).
Proof.
  intros Hd Hens received callbacks.
  assert (Hrun : Forall (λ cb, cb_run cb parsed = Ok tt) callbacks →
                 _on_message client topic payload qos properties w =
                 (Ok tt, after w (received ::
                    map (λ cb, Await (cb_name cb) parsed) callbacks))).
  { intros Hall. rewrite (on_message_decoded _ _ _ _ _ _ _ Hd).
    unfold try_except_UnsupportedError, _get_callbacks. step. rewrite Hens.
    cbn. fold callbacks. rewrite for_each_await_ok by done.
    by rewrite after_after. }
  split; [done|split].
  - intros Hnone. subst callbacks. rewrite Hnone in Hrun. cbn in Hrun.
    by apply Hrun.
  - intros channel_type cb identifier.
    rewrite register_feed_callback_callbacks. by rewrite lookup_insert_eq.
Qed.

(** *** The codec *)

Lemma build_message_empty channel_type message :
  truthy message = false → _build_message channel_type message = Ok (PDict []).
Proof. intros Hm. unfold _build_message. by rewrite Hm. Qed.

(** C9: for [None] and for the empty dict, whatever the channel type and
    whatever the libraries do, [_build_message] returns the empty dict: no
    envelope is serialized or compressed. *)
Theorem empty_value_short_circuit (channel_type : pyobj) :
  _build_message channel_type PNone = Ok (PDict [])
  ∧ _build_message channel_type (PDict []) = Ok (PDict [])
  ∧ _build_message channel_type PNone = _build_message channel_type (PDict []).
Proof. by rewrite !build_message_empty. Qed.

Lemma envelope_literal (c v : pyobj) :
  CHANNEL_TYPE ≠ VERSION → CHANNEL_TYPE ≠ VALUE → VERSION ≠ VALUE →
  dict_set
    (dict_set (dict_set [] CHANNEL_TYPE c)
              VERSION (PStr COMMUNITY_FEED_CURRENT_MINIMUM_VERSION))
    VALUE v
  = [(CHANNEL_TYPE, c);
     (VERSION, PStr COMMUNITY_FEED_CURRENT_MINIMUM_VERSION);
     (VALUE, v)].
Proof.
  intros H1 H2 H3. cbn.
  apply String.eqb_neq in H1, H2, H3.
  rewrite H1. cbn. rewrite H2. cbn. by rewrite H3.
Qed.

(** The round trip where the envelope can be serialized: for a non-empty
    value, when [json] and [zlib] invert each other on the envelope
    (json.loads reads back what json.dumps wrote, the UTF-8 codec and zlib
    give back the text), decoding what [_build_message] returns gives the
    envelope with the channel type, the current minimum version and the
    value. [json.dumps] writes no Enum member, so this covers a channel type
    given by its value and not the member that [send] passes. *)
Lemma envelope_roundtrip (c v : pyobj) (text : string) :
  truthy v = true →
  CHANNEL_TYPE ≠ VERSION → CHANNEL_TYPE ≠ VALUE → VERSION ≠ VALUE →
  let envelope :=
    PDict [(CHANNEL_TYPE, c);
           (VERSION, PStr COMMUNITY_FEED_CURRENT_MINIMUM_VERSION);
           (VALUE, v)] in
  json_dumps envelope = Ok text →
  json_loads text = Ok envelope →
  bytes_decode (str_encode text) = Ok text →
  zlib_decompress (zlib_compress (str_encode text)) = Ok (str_encode text) →
  ∃ payload,
    _build_message c v = Ok (PBytes payload) ∧ decode payload = Ok envelope.
Proof.
  intros Hv H1 H2 H3 envelope Hdumps Hloads Hutf8 Hzlib.
  exists (zlib_compress (str_encode text)). split.
  - unfold _build_message. rewrite Hv, envelope_literal by done.
    fold envelope. by rewrite Hdumps.
  - unfold decode. by rewrite Hzlib, Hutf8.
Qed.

(** *** Sending *)

(** What [send] does with the payload: on a feed that has its transport
    client, a call to [send] whose payload is built publishes once, at the
    feed's default QoS, on the topic of the channel type and identifier, and
    returns. For an empty or absent message the payload is always built: it
    is the empty dict, and it is published all the same. *)
Lemma send_publishes_once message channel_type identifier w client :
  _mqtt_client (self w) = Some client →
  (∀ payload,
     _build_message (PEnum channel_type) message = Ok payload →
     send message channel_type identifier w =
     (Ok tt, after w [Publish (_build_topic channel_type identifier) payload
                              (default_QOS (self w))]))
  ∧ (truthy message = false →
     send message channel_type identifier w =
     (Ok tt, after w [Publish (_build_topic channel_type identifier) (PDict [])
                              (default_QOS (self w))])).
Proof.
  intros Hclient.
  assert (Hsend : ∀ payload,
     _build_message (PEnum channel_type) message = Ok payload →
     send message channel_type identifier w =
     (Ok tt, after w [Publish (_build_topic channel_type identifier) payload
                              (default_QOS (self w))])).
  { intros payload Hp. unfold send, mqtt_client. step.
    rewrite Hclient. step. by rewrite Hp. }
  split; [done|]. intros Hm. apply Hsend. by apply build_message_empty.
Qed.

(** When the payload cannot be built, by [json.dumps] raising on the envelope,
    [send] raises the same exception and publishes nothing. *)
Lemma send_encoding_raises message channel_type identifier w client e :
  _mqtt_client (self w) = Some client →
  _build_message (PEnum channel_type) message = Raise e →
  send message channel_type identifier w = (Raise e, w).
Proof.
  intros Hc He. unfold send, mqtt_client. step. rewrite Hc. step.
  by rewrite He.
Qed.

(** Without a transport client [send] raises and publishes nothing. *)
Lemma send_without_client message channel_type identifier w :
  _mqtt_client (self w) = None →
  send message channel_type identifier w = (Raise AttributeError, w).
Proof. intros Hc. unfold send, mqtt_client. step. by rewrite Hc. Qed.

(** *** Subscription acknowledgements *)




(** *** Registration and resubscription *)

(** What [register_feed_callback] does to the subscribed set and to the
    transport: the guard looks the identifier up in the set of topics. *)
Lemma register_feed_callback_subscription channel_type cb identifier w :
  let topic := _build_topic channel_type identifier in
  let w' := snd (register_feed_callback channel_type cb identifier w) in
  let request :=
    [{| topic := topic; qos := default_QOS (self w); mid := None |}] in
  (not_in identifier (_subscription_topics (self w)) = true →
   _subscription_topics (self w') = {[topic]} ∪ _subscription_topics (self w)
   ∧ subscribe_requests (trace w') =
     subscribe_requests (trace w)
     ++ match _mqtt_client (self w) with
        | Some _ => [request]
        | None => []
        end)
  ∧ (not_in identifier (_subscription_topics (self w)) = false →
     _subscription_topics (self w') = _subscription_topics (self w)
     ∧ subscribe_requests (trace w') = subscribe_requests (trace w)).
Proof.
  intros topic w' request. subst w'.
  unfold register_feed_callback, _subscribe, mqtt_client. fold topic. step.
  split; intros Hin.
  - destruct (feed_callbacks (self w) !! topic); step; rewrite Hin; step;
      (destruct (_mqtt_client (self w)); step;
       [split; [done|];
        unfold subscribe_requests; rewrite !omap_app; cbn;
        by rewrite app_nil_r
       |split; [done|];
        unfold subscribe_requests; rewrite !omap_app; cbn;
        by rewrite app_nil_r]).
  - destruct (feed_callbacks (self w) !! topic); step; rewrite Hin; step; done.
Qed.

(** The subscribed set only grows. *)
Lemma register_feed_callback_grows channel_type cb identifier w :
  _subscription_topics (self w)
  ⊆ _subscription_topics
      (self (snd (register_feed_callback channel_type cb identifier w))).
Proof.
  pose proof (register_feed_callback_subscription channel_type cb identifier w)
    as [Hin Hout].
  destruct (not_in identifier (_subscription_topics (self w))).
  - destruct (Hin eq_refl) as [Ht _]. rewrite Ht. apply union_subseteq_r.
  - destruct (Hout eq_refl) as [Ht _]. by rewrite Ht.
Qed.

Lemma not_in_subseteq identifier (X Y : gset string) :
  X ⊆ Y → not_in identifier Y = true → not_in identifier X = true.
Proof.
  destruct identifier as [i|]; [|done]. cbn. intros Hsub Hy.
  apply bool_decide_eq_true in Hy. apply bool_decide_eq_true.
  intros Hx. apply Hy, Hsub, Hx.
Qed.

Lemma register_feed_callback_fresh channel_type cb identifier w c :
  _mqtt_client (self w) = Some c →
  not_in identifier (_subscription_topics (self w)) = true →
  let w' := snd (register_feed_callback channel_type cb identifier w) in
  fst (register_feed_callback channel_type cb identifier w) = Ok tt
  ∧ _mqtt_client (self w') = Some c
  ∧ _subscription_topics (self w') =
    {[_build_topic channel_type identifier]} ∪ _subscription_topics (self w).
Proof.
  intros Hc Hin.
  unfold register_feed_callback, _subscribe, mqtt_client. step.
  destruct (feed_callbacks (self w) !! _build_topic channel_type identifier);
    step; rewrite Hin; step; rewrite Hc; step; done.
Qed.

(** When no identifier that is registered is itself one of the topics, every
    registration enters the subscribed set: after any sequence of
    registrations, in any order and with any repetition, the set holds the
    topics that were registered and those it held before. *)
Lemma register_all_subscription_topics registrations w c :
  _mqtt_client (self w) = Some c →
  (∀ r, r ∈ registrations →
        not_in r.2 (list_to_set (topic_of <$> registrations)
                    ∪ _subscription_topics (self w)) = true) →
  let w' := snd (register_all registrations w) in
  fst (register_all registrations w) = Ok tt
  ∧ _mqtt_client (self w') = Some c
  ∧ _subscription_topics (self w') =
    list_to_set (topic_of <$> registrations) ∪ _subscription_topics (self w).
Proof.
  revert w. induction registrations as [|[[channel_type cb] identifier] rs IH];
    intros w Hc Hfresh.
  - cbn. split; [done|split; [done|]]. by rewrite (left_id_L ∅ (∪)).
  - assert (Hhead : not_in identifier (_subscription_topics (self w)) = true).
    { eapply not_in_subseteq;
        [|apply (Hfresh (channel_type, cb, identifier)); by left].
      apply union_subseteq_r. }
    destruct (register_feed_callback_fresh channel_type cb identifier w c
                Hc Hhead) as (Hok & Hc' & Htopics).
    unfold register_all in *. cbn [for_each]. step.
    destruct (register_feed_callback channel_type cb identifier w)
      as [r w1] eqn:E.
    cbn in Hok, Hc', Htopics. subst r.
    destruct (IH w1 Hc') as (Hok' & Hc'' & Htopics').
    { intros r Hr. eapply not_in_subseteq; [|apply (Hfresh r); by right].
      rewrite Htopics. cbn [fmap list_fmap list_to_set foldr].
      unfold topic_of at 2. cbn. by rewrite union_insert_commute. }
    split; [done|split; [done|]].
    rewrite Htopics', Htopics. cbn [fmap list_fmap list_to_set foldr].
    unfold topic_of at 2. cbn. by rewrite union_insert_commute.
Qed.

(** On every "connected" event of a feed that has its transport client, one
    subscribe request is issued for the whole subscribed set (when it is not
    empty), and each topic of the set is in it once. *)
Lemma on_connect_resubscribes client flags rc properties w c :
  _mqtt_client (self w) = Some c →
  _subscription_topics (self w) ≠ ∅ →
  let topics := elements (_subscription_topics (self w)) in
  _on_connect client flags rc properties w =
  (Ok tt,
   after w [Log INFO (CONNECTED (_client_id client));
            Log DEBUG (Subscribing_to (join "," topics));
            Subscribe (map (λ t, {| topic := t; qos := default_QOS (self w);
                                    mid := None |}) topics)])
  ∧ NoDup topics
  ∧ ∀ t, t ∈ topics ↔ t ∈ _subscription_topics (self w).
Proof.
  intros Hc Hne topics. split; [|split].
  - unfold _on_connect, _subscribe, mqtt_client. step. fold topics.
    destruct topics as [|t topics'] eqn:E.
    + apply elements_empty_inv in E. apply leibniz_equiv in E. done.
    + step. rewrite Hc. step. by rewrite !after_after.
  - apply NoDup_elements.
  - intros t. apply elem_of_elements.
Qed.

(** Registrations followed by a "connected" event: when no registered
    identifier is itself one of the topics, the request sent on the event
    lists every registered topic once, whatever the order and the
    repetitions of the registrations. *)
Lemma resubscription_covers_registrations client flags rc properties
    registrations w c :
  _mqtt_client (self w) = Some c →
  _subscription_topics (self w) = ∅ →
  registrations ≠ [] →
  (∀ r, r ∈ registrations →
        not_in r.2 (list_to_set (topic_of <$> registrations)) = true) →
  let w' := snd (register_all registrations w) in
  ∃ topics,
    subscribe_requests (trace (snd (_on_connect client flags rc properties w')))
    = subscribe_requests (trace w')
      ++ [map (λ t, {| topic := t; qos := default_QOS (self w'); mid := None |})
              topics]
    ∧ NoDup topics
    ∧ ∀ t, t ∈ topics ↔ t ∈ topic_of <$> registrations.
Proof.
  intros Hc Hempty Hne Hfresh w'.
  destruct (register_all_subscription_topics registrations w c Hc)
    as (_ & Hc' & Htopics).
  { intros r Hr. rewrite Hempty, (right_id_L ∅ (∪)). by apply Hfresh. }
  fold w' in Hc', Htopics. rewrite Hempty, (right_id_L ∅ (∪)) in Htopics.
  destruct (on_connect_resubscribes client flags rc properties w' c Hc')
    as (Hrun & Hnodup & Hmem).
  { rewrite Htopics. destruct registrations as [|r rs]; [done|].
    intros Habs. apply (not_elem_of_empty (C:=gset string) (topic_of r)).
    rewrite <- Habs. cbn. apply elem_of_union_l, elem_of_singleton. done. }
  exists (elements (_subscription_topics (self w'))).
  split; [|split; [done|]].
  - rewrite Hrun. cbn. unfold subscribe_requests. rewrite omap_app. done.
  - intros t. rewrite Hmem, Htopics. apply elem_of_list_to_set.
Qed.

(** X23: a "connected" event on a feed whose subscribed set is empty logs
    and returns; it calls nothing on the transport, and does not need the
    feed to have a client. *)
Lemma on_connect_nothing_to_subscribe client flags rc properties w :
  _subscription_topics (self w) = ∅ →
  _on_connect client flags rc properties w =
  (Ok tt,
   after w [Log INFO (CONNECTED (_client_id client));
            Log DEBUG No_topic_to_subscribe_to]).
Proof.
  intros He. unfold _on_connect, _subscribe. step. rewrite He.
  rewrite elements_empty. step. by rewrite after_after.
Qed.

End FeedFacts.

(** *** Topics *)

Example topic_price_A : _build_topic Sample.price (Some "A") = "price/A".
Proof. reflexivity. Qed.

Example topic_price_B : _build_topic Sample.price (Some "B") = "price/B".
Proof. reflexivity. Qed.

Lemma build_topic_eq channel_type i1 i2 :
  _build_topic channel_type i1 = _build_topic channel_type i2
  ↔ format_identifier i1 = format_identifier i2.
Proof.
  unfold _build_topic. split; [|by intros ->].
  intros Heq. apply String.app_inj in Heq. by apply String.app_inj in Heq.
Qed.

(** C8, as amended: the topic is the channel type's value, a slash, and the
    identifier as text; two identifiers give the same topic exactly when
    their texts are the same, so two different string identifiers give
    different topics. *)
Theorem topic_derivation (channel_type : EnumMember) :
  (∀ identifier,
     _build_topic channel_type identifier =
     value channel_type +:+ "/" +:+ format_identifier identifier)
  ∧ (∀ i1 i2,
       _build_topic channel_type i1 = _build_topic channel_type i2
       ↔ format_identifier i1 = format_identifier i2)
  ∧ (∀ s1 s2 : string,
       s1 ≠ s2 →
       _build_topic channel_type (Some s1) ≠ _build_topic channel_type (Some s2)).
Proof.
  split; [done|split].
  - apply build_topic_eq.
  - intros s1 s2 Hne Heq. apply build_topic_eq in Heq. done.
Qed.

(** ** The version gate on versions of any shape *)

Lemma component_eqb_refl a : LooseVersion.component_eqb a a = true.
Proof. destruct a; cbn; [apply N.eqb_refl|apply String.eqb_refl]. Qed.

Lemma list_eqb_refl v : LooseVersion.list_eqb v v = true.
Proof. induction v as [|a v IH]; [done|]. cbn. by rewrite component_eqb_refl. Qed.

Lemma list_eqb_longer p e :
  e ≠ [] →
  LooseVersion.list_eqb (p ++ e) p = false
  ∧ LooseVersion.list_eqb p (p ++ e) = false.
Proof.
  intros He. induction p as [|a p [IH1 IH2]].
  - by destruct e.
  - cbn. by rewrite component_eqb_refl, IH1, IH2.
Qed.

Lemma list_lt_longer p e :
  e ≠ [] →
  LooseVersion.list_lt p (p ++ e) = Ok true
  ∧ LooseVersion.list_lt (p ++ e) p = Ok false.
Proof.
  intros He. induction p as [|a p [IH1 IH2]].
  - by destruct e.
  - cbn. by rewrite component_eqb_refl.
Qed.

Lemma lt_same v :
  LooseVersion.lt {| LooseVersion.version := Some v |}
                  {| LooseVersion.version := Some v |} = Ok false.
Proof.
  unfold LooseVersion.lt, LooseVersion._cmp. cbn. by rewrite list_eqb_refl.
Qed.

Lemma lt_longer p e :
  e ≠ [] →
  LooseVersion.lt {| LooseVersion.version := Some p |}
                  {| LooseVersion.version := Some (p ++ e) |} = Ok true
  ∧ LooseVersion.lt {| LooseVersion.version := Some (p ++ e) |}
                    {| LooseVersion.version := Some p |} = Ok false.
Proof.
  intros He. unfold LooseVersion.lt, LooseVersion._cmp. cbn.
  destruct (list_eqb_longer p e He) as [-> ->].
  destruct (list_lt_longer p e He) as [-> ->]. done.
Qed.

(** A number against a word at the first place where two versions differ:
    Python cannot order them. *)
Lemma lt_mixed p n s r r' :
  LooseVersion.lt {| LooseVersion.version := Some (p ++ LooseVersion.CStr s :: r) |}
                  {| LooseVersion.version := Some (p ++ LooseVersion.CInt n :: r') |}
  = Raise TypeError
  ∧ LooseVersion.lt {| LooseVersion.version := Some (p ++ LooseVersion.CInt n :: r') |}
                    {| LooseVersion.version := Some (p ++ LooseVersion.CStr s :: r) |}
    = Raise TypeError.
Proof.
  unfold LooseVersion.lt, LooseVersion._cmp. cbn.
  assert (H1 : LooseVersion.list_eqb (p ++ LooseVersion.CStr s :: r)
                 (p ++ LooseVersion.CInt n :: r') = false
               ∧ LooseVersion.list_eqb (p ++ LooseVersion.CInt n :: r')
                   (p ++ LooseVersion.CStr s :: r) = false).
  { induction p as [|a p [IH1 IH2]]; [done|].
    cbn. by rewrite component_eqb_refl, IH1, IH2. }
  assert (H2 : LooseVersion.list_lt (p ++ LooseVersion.CStr s :: r)
                 (p ++ LooseVersion.CInt n :: r') = Raise TypeError
               ∧ LooseVersion.list_lt (p ++ LooseVersion.CInt n :: r')
                   (p ++ LooseVersion.CStr s :: r) = Raise TypeError).
  { clear H1. induction p as [|a p [IH1 IH2]]; [done|].
    cbn. by rewrite component_eqb_refl. }
  destruct H1 as [-> ->], H2 as [-> ->]. done.
Qed.

Lemma truthy_str v : v ≠ EmptyString → truthy (PStr v) = true.
Proof. intros Hv. cbn. by destruct v. Qed.

Section VersionGate.
Context `{PyLibs} `{Constants}.

Ltac step :=
  unfold mbind, M_bind, mret, M_ret, lift, emit, get, modify; cbn.

(** The check on two non-empty version strings is [LooseVersion]'s [<] on
    what [parse] makes of them. *)
Lemma ensure_supported_strings parsed v :
  v ≠ EmptyString →
  COMMUNITY_FEED_CURRENT_MINIMUM_VERSION ≠ EmptyString →
  py_getitem parsed VERSION = Ok (PStr v) →
  _ensure_supported parsed =
  match LooseVersion.lt
          {| LooseVersion.version := Some (LooseVersion.parse v) |}
          {| LooseVersion.version :=
               Some (LooseVersion.parse COMMUNITY_FEED_CURRENT_MINIMUM_VERSION) |}
  with
  | Raise e => Raise e
  | Ok true =>
      Raise (UnsupportedError
               ("Minimum version: " +:+ COMMUNITY_FEED_CURRENT_MINIMUM_VERSION))
  | Ok false => Ok tt
  end.
Proof.
  intros Hv Hmin Hget. unfold _ensure_supported, LooseVersion.init.
  rewrite Hget, (truthy_str v Hv), (truthy_str _ Hmin). done.
Qed.

Lemma minimum_version_gate parsed :
  COMMUNITY_FEED_CURRENT_MINIMUM_VERSION ≠ EmptyString →
  py_getitem parsed VERSION = Ok (PStr COMMUNITY_FEED_CURRENT_MINIMUM_VERSION) →
  _ensure_supported parsed = Ok tt.
Proof.
  intros Hmin Hget.
  rewrite (ensure_supported_strings parsed _ Hmin Hmin Hget).
  by rewrite lt_same.
Qed.

(** X1: an envelope that carries the minimum version itself passes the
    check and goes to the callbacks, whatever the shape of that version
    string (it only has to be non-empty). *)
Theorem minimum_version_is_supported client topic payload qos properties w
    parsed :
  COMMUNITY_FEED_CURRENT_MINIMUM_VERSION ≠ EmptyString →
  decode payload = Ok parsed →
  py_getitem parsed VERSION = Ok (PStr COMMUNITY_FEED_CURRENT_MINIMUM_VERSION) →
  _ensure_supported parsed = Ok tt
  ∧ _on_message client topic payload qos properties w =
    try_except_UnsupportedError
      (for_each (default [] (feed_callbacks (self w) !! topic))
                (λ cb, await cb parsed))
      (λ e, emit (Log ERROR (Unsupported_message e)))
      (after w [Log DEBUG (RECV_MSG (_client_id client) topic payload qos)]).
Proof.
  intros Hmin Hd Hget.
  pose proof (minimum_version_gate parsed Hmin Hget) as Hens.
  split; [done|].
  rewrite (on_message_decoded _ _ _ _ _ _ _ Hd).
  unfold try_except_UnsupportedError, _get_callbacks. step.
  by rewrite Hens.
Qed.

(** X2: a version that continues the minimum with further components (a
    fourth number, a pre-release tag) passes the check; a version that stops
    before the minimum does (the minimum continues it) is rejected. *)
Theorem longer_version_is_newer parsed v extra :
  v ≠ EmptyString →
  COMMUNITY_FEED_CURRENT_MINIMUM_VERSION ≠ EmptyString →
  py_getitem parsed VERSION = Ok (PStr v) →
  extra ≠ [] →
  (LooseVersion.parse v =
   LooseVersion.parse COMMUNITY_FEED_CURRENT_MINIMUM_VERSION ++ extra →
   _ensure_supported parsed = Ok tt)
  ∧ (LooseVersion.parse COMMUNITY_FEED_CURRENT_MINIMUM_VERSION =
     LooseVersion.parse v ++ extra →
     _ensure_supported parsed =
     Raise (UnsupportedError
              ("Minimum version: " +:+ COMMUNITY_FEED_CURRENT_MINIMUM_VERSION))).
Proof.
  intros Hv Hmin Hget Hextra.
  rewrite (ensure_supported_strings parsed v Hv Hmin Hget).
  split; intros ->.
  - by destruct (lt_longer
                   (LooseVersion.parse COMMUNITY_FEED_CURRENT_MINIMUM_VERSION)
                   extra Hextra) as [_ ->].
  - by destruct (lt_longer (LooseVersion.parse v) extra Hextra) as [-> _].
Qed.

(** X3: when the first place where the version and the minimum differ holds
    a number on one side and a word on the other, the check raises
    [TypeError], and so does the handler: the message is neither accepted
    nor logged as unsupported, and no callback is awaited. *)
Theorem mixed_version_raises client topic payload qos properties w parsed
    v common n s rest rest' :
  v ≠ EmptyString →
  COMMUNITY_FEED_CURRENT_MINIMUM_VERSION ≠ EmptyString →
  decode payload = Ok parsed →
  py_getitem parsed VERSION = Ok (PStr v) →
  (LooseVersion.parse v = common ++ LooseVersion.CStr s :: rest
   ∧ LooseVersion.parse COMMUNITY_FEED_CURRENT_MINIMUM_VERSION
     = common ++ LooseVersion.CInt n :: rest')
  ∨ (LooseVersion.parse v = common ++ LooseVersion.CInt n :: rest'
     ∧ LooseVersion.parse COMMUNITY_FEED_CURRENT_MINIMUM_VERSION
       = common ++ LooseVersion.CStr s :: rest) →
  _ensure_supported parsed = Raise TypeError
  ∧ _on_message client topic payload qos properties w =
    (Raise TypeError,
     after w [Log DEBUG (RECV_MSG (_client_id client) topic payload qos)]).
Proof.
  intros Hv Hmin Hd Hget Hshape.
  assert (Hens : _ensure_supported parsed = Raise TypeError).
  { rewrite (ensure_supported_strings parsed v Hv Hmin Hget).
    destruct Hshape as [[-> ->]|[-> ->]].
    - by destruct (lt_mixed common n s rest rest') as [-> _].
    - by destruct (lt_mixed common n s rest rest') as [_ ->]. }
  split; [done|].
  unfold _on_message, try_except_UnsupportedError. step.
  rewrite Hd. step. by rewrite Hens.
Qed.

(** X4: a version field that is not a non-empty string never passes and is
    never reported as unsupported: a falsy one (null, the empty string, 0,
    an empty list or dict) raises [AttributeError], any other raises
    [TypeError]. *)
Theorem version_must_be_a_string parsed v :
  py_getitem parsed VERSION = Ok v →
  (∀ s, s ≠ EmptyString → v ≠ PStr s) →
  _ensure_supported parsed =
  Raise (if truthy v then TypeError else AttributeError).
Proof.
  intros Hget Hns. unfold _ensure_supported, LooseVersion.init. rewrite Hget.
  destruct (truthy v) eqn:Ht.
  - destruct v as [| | |s| | | |]; try done.
    assert (Hs : s ≠ EmptyString) by (intros ->; discriminate).
    by destruct (Hns s Hs).
  - by destruct (truthy (PStr COMMUNITY_FEED_CURRENT_MINIMUM_VERSION)).
Qed.

(** X5: an envelope without the version key, or a document that is not an
    object at all, makes the handler raise [KeyError], respectively
    [TypeError], after the debug log; no callback is awaited. *)
Theorem envelope_without_version_raises client topic payload qos properties w
    parsed :
  decode payload = Ok parsed →
  match parsed with
  | PDict d => dict_get d VERSION = None
  | _ => True
  end →
  _on_message client topic payload qos properties w =
  (Raise (match parsed with PDict _ => KeyError VERSION | _ => TypeError end),
   after w [Log DEBUG (RECV_MSG (_client_id client) topic payload qos)]).
Proof.
  intros Hd Hshape.
  unfold _on_message, try_except_UnsupportedError, _ensure_supported. step.
  rewrite Hd. step. destruct parsed; try done. cbn. by rewrite Hshape.
Qed.

End VersionGate.

(** ** Statements that leave the feed alone *)

Lemma emits_ret {A} P (a : A) : emits P (mret a).
Proof. intros w. exists []. by rewrite after_nil. Qed.

Lemma emits_lift {A} P (r : result A) : emits P (lift r).
Proof. intros w. exists []. by rewrite after_nil. Qed.

Lemma emits_get P : emits P get.
Proof. intros w. exists []. by rewrite after_nil. Qed.

Lemma emits_emit P e : (∀ s, P s e) → emits P (emit e).
Proof. intros He w. exists [e]. split; [done|]. by constructor. Qed.

Lemma emits_bind {A B} P (m : M A) (k : A → M B) :
  emits P m → (∀ a, emits P (k a)) → emits P (m ≫= k).
Proof.
  intros Hm Hk w. destruct (Hm w) as (es & Hes & Hall).
  unfold mbind, M_bind. destruct (m w) as [[a|e] w1]; cbn in *; subst w1.
  - destruct (Hk a (after w es)) as (es' & Hes' & Hall').
    exists (es ++ es'). rewrite Hes', after_after. split; [done|].
    apply Forall_app. done.
  - by exists es.
Qed.

Lemma emits_for_each {A} P (xs : list A) (body : A → M unit) :
  (∀ x, emits P (body x)) → emits P (for_each xs body).
Proof.
  intros Hbody. induction xs as [|x xs IH]; cbn [for_each].
  - apply emits_ret.
  - apply emits_bind; [apply Hbody|]. intros _. apply IH.
Qed.

Lemma emits_try P (body : M unit) (handler : string → M unit) :
  emits P body → (∀ e, emits P (handler e)) →
  emits P (try_except_UnsupportedError body handler).
Proof.
  intros Hb Hh w. destruct (Hb w) as (es & Hes & Hall).
  unfold try_except_UnsupportedError.
  destruct (body w) as [[[]|e] w1]; cbn in *; subst w1; try by exists es.
  destruct e; try by exists es.
  destruct (Hh msg (after w es)) as (es' & Hes' & Hall').
  exists (es ++ es'). rewrite Hes', after_after. split; [done|].
  apply Forall_app. done.
Qed.

Lemma for_each_await_self (cbs : list callback) (arg : pyobj) :
  emits (λ _ e, transport_call e = false) (for_each cbs (λ cb, await cb arg)).
Proof.
  apply emits_for_each. intros cb. unfold await.
  apply emits_bind; [by apply emits_emit|]. intros _. apply emits_lift.
Qed.

Section Handlers.
Context `{PyLibs} `{Constants}.

Ltac step :=
  unfold mbind, M_bind, mret, M_ret, lift, emit, get, modify; cbn.

Lemma on_message_emits client topic payload qos properties :
  emits (λ _ e, transport_call e = false)
        (_on_message client topic payload qos properties).
Proof.
  unfold _on_message.
  apply emits_bind; [by apply emits_emit|]. intros _.
  apply emits_bind; [apply emits_lift|]. intros parsed.
  apply emits_try; [|intros e; by apply emits_emit].
  apply emits_bind; [apply emits_lift|]. intros _.
  apply emits_bind; [|intros cbs; apply for_each_await_self].
  unfold _get_callbacks. apply emits_bind; [apply emits_get|].
  intros s. apply emits_ret.
Qed.

(** X6: with callbacks that are application code and do not call back
    into the feed (they read the message and return or raise, as [callback]
    has them), the handler itself, whatever the payload and the topic, writes
    nothing to the feed (registry, subscribed set, client) and calls nothing
    on the transport: every event it adds is a log or the await of a
    callback. *)
Theorem on_message_leaves_the_feed_alone client topic payload qos properties w :
  ∃ es,
    snd (_on_message client topic payload qos properties w) = after w es
    ∧ Forall (λ e, transport_call e = false) es.
Proof. apply on_message_emits. Qed.

(** X7: when a callback raises, the callbacks registered after it are not
    awaited for that message. An [UnsupportedError] from a callback is
    handled like an unsupported version: it is logged at error level and the
    handler returns; any other exception leaves the handler. *)
Theorem callback_exception_stops_dispatch client topic payload qos properties w
    parsed before cb rest e :
  decode payload = Ok parsed →
  _ensure_supported parsed = Ok tt →
  feed_callbacks (self w) !! topic = Some (before ++ cb :: rest) →
  Forall (λ cb, cb_run cb parsed = Ok tt) before →
  cb_run cb parsed = Raise e →
  let dispatched :=
    Log DEBUG (RECV_MSG (_client_id client) topic payload qos)
    :: map (λ cb, Await (cb_name cb) parsed) (before ++ [cb]) in
  _on_message client topic payload qos properties w =
  match e with
  | UnsupportedError msg =>
      (Ok tt, after w (dispatched ++ [Log ERROR (Unsupported_message msg)]))
  | _ => (Raise e, after w dispatched)
  end.
Proof.
  intros Hd Hens Hcbs Hbefore Hcb dispatched.
  rewrite (on_message_decoded _ _ _ _ _ _ _ Hd).
  unfold try_except_UnsupportedError, _get_callbacks. step.
  rewrite Hens. cbn. rewrite Hcbs. cbn.
  rewrite (for_each_await_raises before rest cb parsed e _ Hbefore Hcb).
  rewrite after_after. fold dispatched.
  destruct e; try done. step. by rewrite after_after.
Qed.

(** X8: what the feed builds it also accepts. For a non-empty value, when
    [json] and [zlib] invert each other on the envelope and the minimum
    version is not the empty string, the payload that [_build_message]
    returns passes the version check of [_on_message] and reaches every
    callback of the topic with the envelope. *)
Theorem built_message_is_dispatched client topic qos properties w
    (c v : pyobj) (text : string) :
  truthy v = true →
  CHANNEL_TYPE ≠ VERSION → CHANNEL_TYPE ≠ VALUE → VERSION ≠ VALUE →
  COMMUNITY_FEED_CURRENT_MINIMUM_VERSION ≠ EmptyString →
  let envelope :=
    PDict [(CHANNEL_TYPE, c);
           (VERSION, PStr COMMUNITY_FEED_CURRENT_MINIMUM_VERSION);
           (VALUE, v)] in
  json_dumps envelope = Ok text →
  json_loads text = Ok envelope →
  bytes_decode (str_encode text) = Ok text →
  zlib_decompress (zlib_compress (str_encode text)) = Ok (str_encode text) →
  Forall (λ cb, cb_run cb envelope = Ok tt)
         (default [] (feed_callbacks (self w) !! topic)) →
  ∃ payload,
    _build_message c v = Ok (PBytes payload)
    ∧ _on_message client topic payload qos properties w =
      (Ok tt,
       after w (Log DEBUG (RECV_MSG (_client_id client) topic payload qos)
                :: map (λ cb, Await (cb_name cb) envelope)
                       (default [] (feed_callbacks (self w) !! topic)))).
Proof.
  intros Hv H1 H2 H3 Hmin envelope Hdumps Hloads Hutf8 Hzlib Hcbs.
  exists (zlib_compress (str_encode text)).
  assert (Hd : decode (zlib_compress (str_encode text)) = Ok envelope).
  { unfold decode. by rewrite Hzlib, Hutf8. }
  assert (Hens : _ensure_supported envelope = Ok tt).
  { apply minimum_version_gate; [done|]. cbn.
    apply String.eqb_neq in H1, H3. rewrite H1. cbn.
    by rewrite String.eqb_refl. }
  split.
  - unfold _build_message. rewrite Hv, envelope_literal by done.
    fold envelope. by rewrite Hdumps.
  - rewrite (on_message_decoded _ _ _ _ _ _ _ Hd).
    unfold try_except_UnsupportedError, _get_callbacks. step.
    rewrite Hens. cbn. rewrite for_each_await_ok by done.
    by rewrite after_after.
Qed.

End Handlers.

(** ** Any sequence of calls *)

Lemma well_formed_call_mono s s' e :
  _subscription_topics s ⊆ _subscription_topics s' →
  default_QOS s' = default_QOS s →
  well_formed_call s e → well_formed_call s' e.
Proof.
  intros Hsub Hq. destruct e; cbn; try done.
  - intros [-> Hp]. by rewrite Hq.
  - intros [Hne Hall]. split; [done|]. intros sub Hsub'.
    destruct (Hall sub Hsub') as (-> & -> & Ht). rewrite Hq. auto.
Qed.

Lemma quiet_is_well_formed s e : transport_call e = false → well_formed_call s e.
Proof. by destruct e. Qed.

Lemma Forall_subscribe_requests (Q : list Subscription → Prop) es :
  Forall (λ e, match e with Subscribe subs => Q subs | _ => True end) es →
  Forall Q (subscribe_requests es).
Proof.
  induction 1 as [|e es He _ IH]; [constructor|].
  unfold subscribe_requests in *. destruct e; cbn; try done. by constructor.
Qed.

Lemma Forall_published (Q : string * pyobj * Z → Prop) es :
  Forall (λ e, match e with Publish t p q => Q (t, p, q) | _ => True end) es →
  Forall Q (published es).
Proof.
  induction 1 as [|e es He _ IH]; [constructor|].
  unfold published in *. destruct e; cbn; try done. by constructor.
Qed.

Section Sessions.
Context `{PyLibs} `{Constants}.

Ltac step :=
  unfold mbind, M_bind, mret, M_ret, lift, emit, get, modify; cbn.

(** [register_feed_callback], run. *)
Lemma register_feed_callback_run channel_type cb identifier w :
  let t := _build_topic channel_type identifier in
  let s1 :=
    set_feed_callbacks
      (<[t := default [] (feed_callbacks (self w) !! t) ++ [cb]]>
         (feed_callbacks (self w)))
      (self w) in
  let s2 :=
    set_subscription_topics ({[t]} ∪ _subscription_topics (self w)) s1 in
  let subscribing := Log DEBUG (Subscribing_to t) in
  register_feed_callback channel_type cb identifier w =
  if not_in identifier (_subscription_topics (self w)) then
    match _mqtt_client (self w) with
    | Some _ =>
        (Ok tt,
         {| self := s2;
            trace := trace w ++
              [subscribing;
               Subscribe [{| topic := t; qos := default_QOS (self w);
                             mid := None |}]] |})
    | None =>
        (Raise AttributeError, {| self := s2; trace := trace w ++ [subscribing] |})
    end
  else (Ok tt, {| self := s1; trace := trace w |}).
Proof.
  intros t s1 s2 subscribing. subst s1 s2.
  unfold register_feed_callback, _subscribe, mqtt_client. fold t. step.
  destruct (feed_callbacks (self w) !! t); step;
    destruct (not_in identifier _); step; try done;
    destruct (_mqtt_client (self w)); step; unfold after; cbn;
    by rewrite <- ?app_assoc.
Qed.

Lemma build_message_shape channel_type message payload :
  _build_message channel_type message = Ok payload →
  payload = PDict [] ∨ ∃ b, payload = PBytes b.
Proof.
  unfold _build_message. destruct (truthy message).
  - destruct (json_dumps _); [|done]. intros [= <-]. eauto.
  - intros [= <-]. by left.
Qed.

Lemma send_emits message channel_type identifier :
  emits well_formed_call (send message channel_type identifier).
Proof.
  intros w. unfold send, mqtt_client. step.
  destruct (_mqtt_client (self w)); step;
    [|exists []; by rewrite after_nil].
  destruct (_build_message _ _) as [payload|e] eqn:E; step;
    [|exists []; by rewrite after_nil].
  eexists. split; [done|]. constructor; [|done].
  cbn. split; [done|]. by eapply build_message_shape.
Qed.

Lemma subscribe_elements_emits :
  emits well_formed_call
    (s ← get; _subscribe (elements (_subscription_topics s))).
Proof.
  intros w. unfold _subscribe, mqtt_client. step.
  destruct (elements (_subscription_topics (self w))) as [|t ts] eqn:E; step.
  - eexists. split; [done|]. by repeat constructor.
  - destruct (_mqtt_client (self w)); step.
    + rewrite after_after. eexists. split; [done|].
      constructor; [done|]. constructor; [|done]. cbn. split; [done|].
      intros sub Hsub.
      change (sub ∈ map (λ t, {| topic := t; qos := default_QOS (self w);
                                mid := None |}) (t :: ts)) in Hsub.
      rewrite <- E in Hsub. apply list_elem_of_fmap in Hsub as (t' & -> & Ht').
      cbn. by apply elem_of_elements in Ht'.
    + eexists. split; [done|]. by repeat constructor.
Qed.

Lemma on_connect_emits client flags rc properties :
  emits well_formed_call (_on_connect client flags rc properties).
Proof.
  unfold _on_connect. apply emits_bind; [by apply emits_emit|].
  intros _. apply subscribe_elements_emits.
Qed.

Lemma on_subscribe_emits client mid qos properties :
  emits (λ _ e, ∀ sub, e = Resubscribe sub →
                       sub ∈ get_subscriptions_by_mid client mid)
        (_on_subscribe client mid qos properties)
  ∧ emits well_formed_call (_on_subscribe client mid qos properties).
Proof.
  unfold _on_subscribe.
  assert (Hin : ∀ p, p ∈ zip (get_subscriptions_by_mid client mid) qos →
                     p.1 ∈ get_subscriptions_by_mid client mid).
  { intros [sub q] Hp. cbn. by apply elem_of_zip_l in Hp. }
  revert Hin. generalize (zip (get_subscriptions_by_mid client mid) qos).
  intros batch Hin. split.
  - induction batch as [|[sub q] batch IH]; cbn [for_each].
    + apply emits_ret.
    + apply emits_bind; [|intros _; apply IH; intros p Hp; apply Hin; by right].
      apply emits_bind; [|intros _; by apply emits_emit].
      destruct (UNSPECIFIED_ERROR <=? q); [|apply emits_ret].
      apply emits_bind; [by apply emits_emit|]. intros _.
      apply emits_emit. intros _ sub' [= <-].
      apply (Hin (sub, q)). by left.
  - apply emits_for_each. intros [sub q].
    apply emits_bind; [|intros _; by apply emits_emit].
    destruct (UNSPECIFIED_ERROR <=? q); [|apply emits_ret].
    apply emits_bind; [by apply emits_emit|]. intros _. by apply emits_emit.
Qed.

(** What one call does to the feed. *)
Lemma run_step c w :
  let w' := snd (run c w) in
  (∃ es, trace w' = trace w ++ es ∧ Forall (well_formed_call (self w')) es)
  ∧ _subscription_topics (self w) ⊆ _subscription_topics (self w')
  ∧ (∀ t, ∃ added,
       default [] (feed_callbacks (self w') !! t) =
       default [] (feed_callbacks (self w) !! t) ++ added)
  ∧ default_QOS (self w') = default_QOS (self w)
  ∧ (consistent (self w) → consistent (self w')).
Proof.
  assert (Hquiet : ∀ m : M unit, emits well_formed_call m →
    let w' := snd (m w) in
    (∃ es, trace w' = trace w ++ es ∧ Forall (well_formed_call (self w')) es)
    ∧ _subscription_topics (self w) ⊆ _subscription_topics (self w')
    ∧ (∀ t, ∃ added,
         default [] (feed_callbacks (self w') !! t) =
         default [] (feed_callbacks (self w) !! t) ++ added)
    ∧ default_QOS (self w') = default_QOS (self w)
    ∧ (consistent (self w) → consistent (self w'))).
  { intros m Hm. destruct (Hm w) as (es & Hes & Hall). cbn. rewrite Hes. cbn.
    split; [by exists es|]. split; [done|].
    split; [intros t; exists []; by rewrite app_nil_r|]. done. }
  destruct c as [| |channel_type cb identifier|message channel_type identifier
                |client flags rc properties|client tp payload q properties
                |client|client m q properties]; cbn [run].
  - (* start *)
    unfold start, _connect, _fetch_device_credential. step.
    rewrite <- !app_assoc. cbn.
    split; [eexists; split; [done|]; by repeat constructor|].
    split; [done|]. split; [intros t; exists []; by rewrite app_nil_r|]. done.
  - (* stop *)
    unfold stop. step. destruct (_mqtt_client (self w)) as [cl|];
      [destruct (is_connected cl)|]; step.
    + split; [eexists; split; [done|]; by repeat constructor|].
      split; [done|]. split; [intros t; exists []; by rewrite app_nil_r|]. done.
    + split; [exists []; by rewrite app_nil_r|].
      split; [done|]. split; [intros t; exists []; by rewrite app_nil_r|]. done.
    + split; [exists []; by rewrite app_nil_r|].
      split; [done|]. split; [intros t; exists []; by rewrite app_nil_r|]. done.
  - (* register_feed_callback *)
    rewrite register_feed_callback_run.
    set (t := _build_topic channel_type identifier).
    assert (Hcbs : ∀ t', ∃ added,
      default [] (<[t := default [] (feed_callbacks (self w) !! t) ++ [cb]]>
                    (feed_callbacks (self w)) !! t') =
      default [] (feed_callbacks (self w) !! t') ++ added).
    { intros t'. destruct (decide (t = t')) as [<-|Hne].
      - rewrite lookup_insert_eq. by eexists.
      - rewrite lookup_insert_ne by done. exists []. by rewrite app_nil_r. }
    assert (Hlists : ∀ t' l,
      (∀ t l, feed_callbacks (self w) !! t = Some l → l ≠ []) →
      <[t := default [] (feed_callbacks (self w) !! t) ++ [cb]]>
        (feed_callbacks (self w)) !! t' = Some l → l ≠ []).
    { intros t' l Hold. destruct (decide (t = t')) as [<-|Hne].
      - rewrite lookup_insert_eq. intros [= <-]. by destruct (default _ _).
      - rewrite lookup_insert_ne by done. apply Hold. }
    assert (Hhas : ∀ t',
      (∀ t, t ∈ _subscription_topics (self w) →
            ∃ cb cbs, feed_callbacks (self w) !! t = Some (cb :: cbs)) →
      t' ∈ {[t]} ∪ _subscription_topics (self w) →
      ∃ cb' cbs,
        <[t := default [] (feed_callbacks (self w) !! t) ++ [cb]]>
          (feed_callbacks (self w)) !! t' = Some (cb' :: cbs)).
    { intros t' Hold Ht'. destruct (decide (t = t')) as [<-|Hne].
      - rewrite lookup_insert_eq.
        destruct (default [] (feed_callbacks (self w) !! t)); cbn; eauto.
      - rewrite lookup_insert_ne by done. apply Hold.
        apply elem_of_union in Ht' as [Ht'%elem_of_singleton|Ht']; [|done].
        by subst. }
    destruct (not_in identifier (_subscription_topics (self w)));
      [destruct (_mqtt_client (self w))|]; cbn.
    + split.
      { eexists. split; [done|]. constructor; [done|]. constructor; [|done].
        cbn. split; [done|]. intros sub ->%list_elem_of_singleton. cbn.
        split; [done|]. split; [done|]. apply elem_of_union_l.
        by apply elem_of_singleton. }
      split; [apply union_subseteq_r|]. split; [done|]. split; [done|].
      intros (Hsubd & Hne & Hq & Hp). repeat split; cbn; eauto.
    + split; [eexists; split; [done|]; by repeat constructor|].
      split; [apply union_subseteq_r|]. split; [done|]. split; [done|].
      intros (Hsubd & Hne & Hq & Hp). repeat split; cbn; eauto.
    + split; [exists []; by rewrite app_nil_r|].
      split; [done|]. split; [done|]. split; [done|].
      intros (Hsubd & Hne & Hq & Hp). repeat split; cbn; eauto.
      intros t' Ht'. apply Hhas; [done|]. by apply elem_of_union_r.
  - apply Hquiet, send_emits.
  - apply Hquiet, on_connect_emits.
  - apply Hquiet. intros w0.
    destruct (on_message_emits client tp payload q properties w0)
      as (es & Hes & Hall).
    exists es. split; [done|]. eapply Forall_impl; [exact Hall|].
    intros e. apply quiet_is_well_formed.
  - apply Hquiet. unfold _on_disconnect. by apply emits_emit.
  - apply Hquiet, on_subscribe_emits.
Qed.

Lemma session_step calls w :
  let w' := session calls w in
  (∃ es, trace w' = trace w ++ es ∧ Forall (well_formed_call (self w')) es)
  ∧ _subscription_topics (self w) ⊆ _subscription_topics (self w')
  ∧ (∀ t, ∃ added,
       default [] (feed_callbacks (self w') !! t) =
       default [] (feed_callbacks (self w) !! t) ++ added)
  ∧ default_QOS (self w') = default_QOS (self w)
  ∧ (consistent (self w) → consistent (self w')).
Proof.
  revert w. induction calls as [|c calls IH]; intros w; cbn.
  - split; [exists []; by rewrite app_nil_r|]. split; [done|].
    split; [intros t; exists []; by rewrite app_nil_r|]. done.
  - destruct (run_step c w) as ((es1 & Ht1 & Hwf1) & Hsub1 & Hcb1 & Hq1 & Hc1).
    destruct (IH (snd (run c w)))
      as ((es2 & Ht2 & Hwf2) & Hsub2 & Hcb2 & Hq2 & Hc2).
    split; [|split; [|split; [|split]]].
    + exists (es1 ++ es2). rewrite Ht2, Ht1, app_assoc. split; [done|].
      apply Forall_app. split; [|done].
      eapply Forall_impl; [exact Hwf1|]. intros e.
      by apply well_formed_call_mono.
    + by transitivity (_subscription_topics (self (snd (run c w)))).
    + intros t. destruct (Hcb1 t) as [a1 Ha1], (Hcb2 t) as [a2 Ha2].
      exists (a1 ++ a2). by rewrite Ha2, Ha1, app_assoc.
    + by rewrite Hq2.
    + auto.
Qed.

Lemma init_consistent url : consistent (__init__ url).
Proof.
  split; [|split; [|done]].
  - intros t Ht. cbn in Ht. by apply not_elem_of_empty in Ht.
  - intros t l Hl. cbn in Hl. by rewrite lookup_empty in Hl.
Qed.

(** X9: whatever the application and the transport call, in whatever
    order, and whichever of the calls raise, a feed that started out fresh
    has a callback for every topic of its subscribed set, has no empty list
    in its registry, and keeps QoS 1 and port 1883. *)
Theorem session_keeps_the_registry_consistent url calls :
  let s := self (session calls {| self := __init__ url; trace := [] |}) in
  (∀ t, t ∈ _subscription_topics s →
        ∃ cb cbs, feed_callbacks s !! t = Some (cb :: cbs))
  ∧ (∀ t l, feed_callbacks s !! t = Some l → l ≠ [])
  ∧ default_QOS s = 1
  ∧ mqtt_broker_port s = 1883.
Proof.
  destruct (session_step calls {| self := __init__ url; trace := [] |})
    as (_ & _ & _ & _ & Hc).
  apply Hc, init_consistent.
Qed.

(** X10: in any sequence of calls on a fresh feed, every subscribe request
    sent to the transport is non-empty, asks for QoS 1, and names only topics
    that are in the subscribed set and have a callback. *)
Theorem session_subscribes_registered_topics url calls :
  let w := session calls {| self := __init__ url; trace := [] |} in
  Forall (λ subs,
            subs ≠ []
            ∧ ∀ sub, sub ∈ subs →
                     qos sub = 1 ∧ mid sub = None
                     ∧ topic sub ∈ _subscription_topics (self w)
                     ∧ is_Some (feed_callbacks (self w) !! topic sub))
         (subscribe_requests (trace w)).
Proof.
  destruct (session_step calls {| self := __init__ url; trace := [] |})
    as ((es & Ht & Hwf) & _ & _ & Hq & Hc).
  destruct (Hc (init_consistent url)) as (Hhas & _ & _ & _).
  cbn in *. rewrite Ht. apply Forall_subscribe_requests.
  eapply Forall_impl; [exact Hwf|]. intros [] He; try done.
  destruct He as [Hne Hall]. split; [done|]. intros sub Hsub.
  destruct (Hall sub Hsub) as (Hqos & Hmid & Htopic).
  rewrite Hq in Hqos. repeat split; try done.
  destruct (Hhas _ Htopic) as (cb & cbs & ->). by eexists.
Qed.

(** X11: in any sequence of calls on a fresh feed, every publish is made at
    QoS 1 and its payload is either compressed bytes or the empty dict. *)
Theorem session_publishes_at_default_qos url calls :
  let w := session calls {| self := __init__ url; trace := [] |} in
  Forall (λ '(_, payload, q),
            q = 1 ∧ (payload = PDict [] ∨ ∃ b, payload = PBytes b))
         (published (trace w)).
Proof.
  destruct (session_step calls {| self := __init__ url; trace := [] |})
    as ((es & Ht & Hwf) & _ & _ & Hq & _).
  cbn in *. rewrite Ht.
  apply (Forall_published
           (λ '(_, payload, q),
              q = 1 ∧ (payload = PDict [] ∨ ∃ b, payload = PBytes b))).
  eapply Forall_impl; [exact Hwf|]. intros [] He; try done.
  destruct He as [-> Hp]. by rewrite Hq.
Qed.

(** X12: no call ever takes anything back. Across any sequence of calls the
    subscribed set only grows, every topic keeps the callbacks it had, in
    their order, with the later ones behind them, and the QoS stays. *)
Theorem session_never_forgets calls w :
  let w' := session calls w in
  _subscription_topics (self w) ⊆ _subscription_topics (self w')
  ∧ (∀ t, ∃ added,
       default [] (feed_callbacks (self w') !! t) =
       default [] (feed_callbacks (self w) !! t) ++ added)
  ∧ default_QOS (self w') = default_QOS (self w).
Proof.
  destruct (session_step calls w) as (_ & Hsub & Hcb & Hq & _). done.
Qed.

(** X13: only [register_feed_callback] changes the registry or the
    subscribed set: [start], [stop], [send] and the four handlers of the
    transport leave both as they are. *)
Theorem only_registration_changes_the_registry c w :
  (∀ channel_type cb identifier, c ≠ Register channel_type cb identifier) →
  feed_callbacks (self (snd (run c w))) = feed_callbacks (self w)
  ∧ _subscription_topics (self (snd (run c w))) = _subscription_topics (self w).
Proof.
  intros Hc.
  assert (Hquiet : ∀ m : M unit, emits well_formed_call m →
            self (snd (m w)) = self w).
  { intros m Hm. destruct (Hm w) as (es & -> & _). done. }
  destruct c as [| |channel_type cb identifier|message channel_type identifier
                |client flags rc properties|client tp payload q properties
                |client|client m q properties]; cbn [run].
  - done.
  - unfold stop. step. destruct (_mqtt_client (self w)) as [cl|];
      [destruct (is_connected cl)|]; done.
  - by destruct (Hc channel_type cb identifier).
  - by rewrite (Hquiet _ (send_emits _ _ _)).
  - by rewrite (Hquiet _ (on_connect_emits _ _ _ _)).
  - destruct (on_message_emits client tp payload q properties w)
      as (es & -> & _). done.
  - done.
  - by rewrite (Hquiet _ (proj2 (on_subscribe_emits _ _ _ _))).
Qed.

Lemma not_in_empty identifier : not_in identifier ∅ = true.
Proof.
  destruct identifier as [i|]; [|done]. cbn. apply bool_decide_eq_true.
  apply not_elem_of_empty.
Qed.

(** X14: a callback registered before [start] is not lost. The call raises
    [AttributeError], for want of a client, after it has recorded the
    callback and the topic, and sends nothing; once the feed is started,
    the "connected" event subscribes to the topic. *)
Theorem registration_before_start_is_replayed url channel_type cb identifier
    client flags rc properties :
  let t := _build_topic channel_type identifier in
  let r := register_feed_callback channel_type cb identifier
             {| self := __init__ url; trace := [] |} in
  let w := snd (_on_connect client flags rc properties (snd (start (snd r)))) in
  fst r = Raise AttributeError
  ∧ subscribe_requests (trace (snd r)) = []
  ∧ feed_callbacks (self w) !! t = Some [cb]
  ∧ subscribe_requests (trace w) = [[{| topic := t; qos := 1; mid := None |}]].
Proof.
  intros t r w. subst r w.
  rewrite register_feed_callback_run. fold t. cbn [self __init__ _subscription_topics].
  rewrite not_in_empty. cbn [_mqtt_client fst snd trace].
  split; [done|]. split; [done|].
  unfold start, _connect, _fetch_device_credential, _on_connect, _subscribe,
    mqtt_client. step.
  rewrite (right_id_L ∅ (∪)), elements_singleton. step.
  split; [by rewrite lookup_insert_eq|done].
Qed.

(** X15: a "connected" event changes nothing in the feed, so a second one
    (a reconnection) sends the very request the first one sent. On a feed
    with a client and a subscribed set that is not empty, each event sends
    exactly one subscribe request, and that request lists every topic of the
    subscribed set once, at the feed's QoS; without a topic (or without a
    client) no request is sent. *)
Theorem reconnection_repeats_the_request client client' flags flags' rc rc'
    properties properties' w :
  let topics := elements (_subscription_topics (self w)) in
  let request :=
    match topics, _mqtt_client (self w) with
    | _ :: _, Some _ =>
        [map (λ t, {| topic := t; qos := default_QOS (self w); mid := None |})
             topics]
    | _, _ => []
    end in
  let w1 := snd (_on_connect client flags rc properties w) in
  let w2 := snd (_on_connect client' flags' rc' properties' w1) in
  self w1 = self w
  ∧ self w2 = self w
  ∧ subscribe_requests (trace w1) = subscribe_requests (trace w) ++ request
  ∧ subscribe_requests (trace w2) = subscribe_requests (trace w1) ++ request
  ∧ NoDup topics
  ∧ (∀ t, t ∈ topics ↔ t ∈ _subscription_topics (self w))
  ∧ (_mqtt_client (self w) ≠ None → _subscription_topics (self w) ≠ ∅ →
     length request = 1%nat).
Proof.
  cbn zeta.
  split; [|split; [|split; [|split; [|split;
    [apply NoDup_elements|split; [intros t; apply elem_of_elements|]]]]]].
  1-4: unfold _on_connect, _subscribe, mqtt_client; step;
    destruct (elements (_subscription_topics (self w))) as [|t ts] eqn:E; step;
    [|destruct (_mqtt_client (self w)) eqn:Ec; step];
    rewrite ?E; step; rewrite ?Ec; step;
    unfold subscribe_requests; rewrite ?omap_app; cbn; rewrite ?app_nil_r;
    done.
  intros Hc Hne.
  destruct (elements (_subscription_topics (self w))) as [|t ts] eqn:E.
  - apply elements_empty_inv in E. apply leibniz_equiv in E. done.
  - by destruct (_mqtt_client (self w)).
Qed.

(** X16: the handler of subscribe acknowledgements only ever re-issues
    subscriptions that the client holds under the acknowledged message id;
    it leaves the feed as it is. *)
Theorem resubscribes_only_the_acknowledged client m qos properties w :
  ∃ es,
    snd (_on_subscribe client m qos properties w) = after w es
    ∧ ∀ sub, sub ∈ resubscribed es →
             sub ∈ subscriptions client ∧ mid sub = Some m.
Proof.
  destruct (proj1 (on_subscribe_emits client m qos properties) w)
    as (es & Hes & Hall).
  exists es. split; [done|]. intros sub Hsub.
  assert (Hin : sub ∈ get_subscriptions_by_mid client m).
  { clear Hes. induction Hall as [|e es He _ IH]; [by inversion Hsub|].
    unfold resubscribed in *. destruct e; cbn in Hsub; try by apply IH.
    apply elem_of_cons in Hsub as [->|Hsub]; [by apply He|by apply IH]. }
  unfold get_subscriptions_by_mid in Hin.
  apply list_elem_of_filter in Hin as [Hm Hin]. split; [done|].
  unfold Z_eqb_opt in Hm. destruct (mid sub) as [x|]; [|done].
  apply Z.eqb_eq in Hm. by subst.
Qed.

(** X17: an acknowledgement for a message id under which the client holds
    no subscription, or one that grants nothing, does nothing at all: no log,
    no resubscription. *)
Theorem unknown_acknowledgement_is_ignored client m qos properties w :
  (∀ sub, sub ∈ subscriptions client → mid sub ≠ Some m) ∨ qos = [] →
  _on_subscribe client m qos properties w = (Ok tt, w).
Proof.
  intros Hnone. unfold _on_subscribe.
  assert (Hz : zip (get_subscriptions_by_mid client m) qos = []).
  { destruct Hnone as [Hnone| ->]; [|by destruct (get_subscriptions_by_mid _ _)].
    assert (Hg : get_subscriptions_by_mid client m = []); [|by rewrite Hg].
    unfold get_subscriptions_by_mid.
    induction (subscriptions client) as [|sub subs IH]; [done|].
    rewrite filter_cons. rewrite decide_False.
    - apply IH. intros sub' Hsub'. apply Hnone. by right.
    - unfold Z_eqb_opt. pose proof (Hnone sub ltac:(by left)) as Hm.
      destruct (mid sub) as [x|]; [|done].
      intros Hx%Z.eqb_eq. by subst. }
  by rewrite Hz.
Qed.

(** X18: [stop] never raises and leaves the registry and the subscribed
    set as they are. On a feed whose client is connected it calls
    [disconnect] on the transport, once, and nothing else; on a feed with no
    client, or with a client that is not connected, it does nothing at
    all. *)
Theorem stop_disconnects_once w :
  fst (stop w) = Ok tt
  ∧ feed_callbacks (self (snd (stop w))) = feed_callbacks (self w)
  ∧ _subscription_topics (self (snd (stop w))) = _subscription_topics (self w)
  ∧ match _mqtt_client (self w) with
    | Some c =>
        if is_connected c
        then trace (snd (stop w)) = trace w ++ [Disconnect]
        else snd (stop w) = w
    | None => snd (stop w) = w
    end.
Proof.
  unfold stop. step.
  destruct (_mqtt_client (self w)) as [cl|] eqn:Ec;
    [destruct (is_connected cl) eqn:Ei|]; step; done.
Qed.

Lemma find_by_value (members : list EnumMember) (m : EnumMember) :
  NoDup (value <$> members) → m ∈ members →
  List.find (λ m', String.eqb (value m') (value m)) members = Some m.
Proof.
  induction members as [|m' members IH]; [by inversion 2|].
  rewrite fmap_cons. intros [Hnotin Hnd]%NoDup_cons Hm. cbn.
  apply elem_of_cons in Hm as [->|Hm].
  - by rewrite String.eqb_refl.
  - destruct (String.eqb_spec (value m') (value m)) as [Heq|_]; [|by apply IH].
    destruct Hnotin. rewrite Heq. by apply list_elem_of_fmap_2.
Qed.

Lemma find_no_value (members : list EnumMember) (v : string) :
  (∀ m, m ∈ members → value m ≠ v) →
  List.find (λ m', String.eqb (value m') v) members = None.
Proof.
  induction members as [|m' members IH]; [done|]. intros Hno. cbn.
  destruct (String.eqb_spec (value m') v) as [Heq|_].
  - destruct (Hno m'); [by left|done].
  - apply IH. intros m Hm. apply Hno. by right.
Qed.

(** X19: when the members of the channel type class have different values,
    [_get_channel_type] finds, for an envelope that holds a member's value,
    that member; and it raises [ValueError] for a string that is no
    member's value. *)
Theorem channel_type_of_envelope message v :
  NoDup (value <$> CommunityChannelTypes) →
  py_getitem message CHANNEL_TYPE = Ok (PStr v) →
  (∀ m, m ∈ CommunityChannelTypes → value m = v →
        _get_channel_type message = Ok m)
  ∧ ((∀ m, m ∈ CommunityChannelTypes → value m ≠ v) →
     _get_channel_type message = Raise ValueError).
Proof.
  intros Hnd Hget. unfold _get_channel_type. rewrite Hget. cbn. split.
  - intros m Hm <-. by rewrite find_by_value.
  - intros Hno. by rewrite find_no_value.
Qed.

Lemma register_all_qos registrations w :
  default_QOS (self (snd (register_all registrations w))) = default_QOS (self w).
Proof.
  unfold register_all. revert w.
  induction registrations as [|[[channel_type cb] identifier] rs IH];
    intros w; [done|].
  cbn [for_each]. step.
  destruct (run_step (Register channel_type cb identifier) w)
    as (_ & _ & _ & Hq & _). cbn [run] in Hq.
  destruct (register_feed_callback channel_type cb identifier w)
    as [[[]|e] w1]; cbn in *; [|done].
  by rewrite IH.
Qed.

(** X21: [send] is all or nothing. Either it returns and has published
    exactly once, on the topic of the channel type and identifier at the
    feed's QoS, or it raises (no client, or a payload that cannot be built)
    and then nothing was published and the feed is as before. *)
Theorem send_is_all_or_nothing message channel_type identifier w :
  (∃ payload,
     _build_message (PEnum channel_type) message = Ok payload
     ∧ send message channel_type identifier w =
       (Ok tt, after w [Publish (_build_topic channel_type identifier) payload
                                (default_QOS (self w))]))
  ∨ (∃ e, send message channel_type identifier w = (Raise e, w)).
Proof.
  unfold send, mqtt_client. step.
  destruct (_mqtt_client (self w)); step; [|right; by eexists].
  destruct (_build_message _ _) as [payload|e]; step.
  - left. by exists payload.
  - right. by eexists.
Qed.

(** X22: from creation to the first "connected" event. On a fresh feed that
    is started and then receives registrations, in any order and with any
    repetition, none of whose identifiers is itself one of the topics, every
    registration returns, and the request of the "connected" event lists
    each registered topic once. *)
Theorem started_feed_subscribes_every_registration url registrations
    client flags rc properties :
  registrations ≠ [] →
  (∀ r, r ∈ registrations →
        not_in r.2 (list_to_set (topic_of <$> registrations)) = true) →
  let w0 := snd (start {| self := __init__ url; trace := [] |}) in
  let w := snd (register_all registrations w0) in
  fst (register_all registrations w0) = Ok tt
  ∧ ∃ topics,
      subscribe_requests (trace (snd (_on_connect client flags rc properties w)))
      = subscribe_requests (trace w)
        ++ [map (λ t, {| topic := t; qos := 1; mid := None |}) topics]
      ∧ NoDup topics
      ∧ ∀ t, t ∈ topics ↔ t ∈ topic_of <$> registrations.
Proof.
  intros Hne Hfresh w0 w.
  assert (Hc : _mqtt_client (self w0) = Some (new_client true)) by done.
  assert (He : _subscription_topics (self w0) = ∅) by done.
  split.
  - apply (register_all_subscription_topics registrations w0 _ Hc).
    intros r Hr. rewrite He, (right_id_L ∅ (∪)). by apply Hfresh.
  - destruct (resubscription_covers_registrations client flags rc properties
                registrations w0 _ Hc He Hne Hfresh)
      as (topics & Hreq & Hnd & Hmem).
    exists topics. split; [|done]. fold w in Hreq. rewrite Hreq.
    fold w. unfold w. by rewrite register_all_qos.
Qed.

End Sessions.

(** ** Topics of different channel types *)

Lemma append_cons c (a r : string) : String c a +:+ r = String c (a +:+ r).
Proof. reflexivity. Qed.

Lemma append_slash_inj (a b x y : string) :
  no_slash a = true → no_slash b = true →
  a +:+ "/" +:+ x = b +:+ "/" +:+ y → a = b ∧ x = y.
Proof.
  revert b. induction a as [|c a IH]; intros [|c' b] Ha Hb Heq.
  - change (String "/" x = String "/" y) in Heq. by injection Heq as ->.
  - rewrite append_cons in Heq.
    change (String "/" x = String c' (b +:+ "/" +:+ y)) in Heq.
    injection Heq as <- _. by cbn in Hb.
  - rewrite append_cons in Heq.
    change (String c (a +:+ "/" +:+ x) = String "/" y) in Heq.
    injection Heq as -> _. by cbn in Ha.
  - rewrite !append_cons in Heq. injection Heq as -> Heq.
    cbn in Ha, Hb. apply andb_true_iff in Ha as [_ Ha], Hb as [_ Hb].
    destruct (IH b Ha Hb Heq) as [-> ->]. done.
Qed.

(** X20: when the values of the channel types hold no slash, a topic
    determines the channel type's value and the identifier's text: two
    registrations share a topic only if they agree on both. *)
Theorem topic_determines_channel_and_identifier c1 c2 i1 i2 :
  no_slash (value c1) = true → no_slash (value c2) = true →
  _build_topic c1 i1 = _build_topic c2 i2 →
  value c1 = value c2 ∧ format_identifier i1 = format_identifier i2.
Proof. unfold _build_topic. apply append_slash_inj. Qed.


(** ** The feed on concrete inputs *)

Import Reference.

Example loose_version_is_not_lexical :
  String.ltb "1.10.0" "1.9.0" = true
  ∧ (∀ v m, LooseVersion.init (PStr "1.10.0") = Ok v →
            LooseVersion.init (PStr "1.9.0") = Ok m →
            LooseVersion.lt v m = Ok false).
Proof. split; [reflexivity|]. intros v m [= <-] [= <-]. reflexivity. Qed.

Example version_0_0_1_rejected :
  _ensure_supported (Sample.message_of_version "0.0.1")
  = Raise (UnsupportedError "Minimum version: 1.0.0").
Proof. reflexivity. Qed.

Example version_1_0_0_accepted :
  _ensure_supported (Sample.message_of_version "1.0.0") = Ok tt.
Proof. reflexivity. Qed.

Example version_2_0_0_accepted :
  _ensure_supported (Sample.message_of_version "2.0.0") = Ok tt.
Proof. reflexivity. Qed.

Example payload_decodes :
  decode (Sample.payload_of_version "1.0.0")
  = Ok (Sample.message_of_version "1.0.0").
Proof. vm_compute. reflexivity. Qed.

(** C1, as stated, fails: the empty payload is not a zlib stream, and the
    handler raises [zlib.error] instead of returning. *)
Lemma decode_failure_not_swallowed :
  decode [] = Raise ZlibError
  ∧ fst (_on_message Sample.broker "Signal/A" [] 1 PNone Sample.started)
    = Raise ZlibError
  ∧ fst (_on_message Sample.broker "Signal/A" [] 1 PNone Sample.started)
    ≠ Ok tt.
Proof. split; [|split]; [vm_compute; reflexivity ..|discriminate]. Qed.

Lemma decode_failure_propagates_witness :
  _on_message Sample.broker "Signal/A" [] 1 PNone Sample.started
  = (Raise ZlibError,
     after Sample.started [Log DEBUG (RECV_MSG "CommunityMQTTFeed" "Signal/A" [] 1)]).
Proof.
  apply (decode_failure_propagates Sample.broker "Signal/A" [] 1 PNone
           Sample.started ZlibError).
  reflexivity.
Defined.

Lemma version_gate_witness :
  _on_message Sample.broker "Signal/A" (Sample.payload_of_version "0.0.1")
              1 PNone Sample.listening
  = (Ok tt,
     after Sample.listening
       [Log DEBUG (RECV_MSG "CommunityMQTTFeed" "Signal/A"
                            (Sample.payload_of_version "0.0.1") 1);
        Log ERROR (Unsupported_message "Minimum version: 1.0.0")]).
Proof.
  refine (proj1 (proj2
    (version_gate Sample.broker "Signal/A" (Sample.payload_of_version "0.0.1")
       1 PNone Sample.listening (Sample.message_of_version "0.0.1")
       "0" "0" "1" "1" "0" "0" _ _ _ _ _ _ _ _ _)) _);
    vm_compute; reflexivity.
Defined.

Lemma callbacks_in_registration_order_witness :
  _on_message Sample.broker "Signal/A" (Sample.payload_of_version "1.0.0")
              1 PNone Sample.listening
  = (Ok tt,
     after Sample.listening
       [Log DEBUG (RECV_MSG "CommunityMQTTFeed" "Signal/A"
                            (Sample.payload_of_version "1.0.0") 1);
        Await "on_signal" (Sample.message_of_version "1.0.0");
        Await "on_signal_too" (Sample.message_of_version "1.0.0")]).
Proof.
  refine (proj1
    (callbacks_in_registration_order Sample.broker "Signal/A"
       (Sample.payload_of_version "1.0.0") 1 PNone Sample.listening
       (Sample.message_of_version "1.0.0") _ _) _).
  - vm_compute. reflexivity.
  - reflexivity.
  - repeat constructor.
Defined.

(** With the value of the channel type in the envelope, what
    [_build_message] returns decodes to the envelope. *)
Example envelope_roundtrip_of_value :
  ∃ payload,
    _build_message (PStr (value Sample.SIGNAL)) (PDict [("price", PInt 42)])
    = Ok (PBytes payload)
    ∧ decode payload
      = Ok (PDict [("c", PStr "Signal"); ("v", PStr "1.0.0");
                   ("s", PDict [("price", PInt 42)])]).
Proof.
  refine (envelope_roundtrip (PStr "Signal") (PDict [("price", PInt 42)])
            (Sample.text_of (Sample.message_of_version "1.0.0"))
            _ _ _ _ _ _ _ _);
    try discriminate; vm_compute; reflexivity.
Qed.

(** The envelope holds the channel type as [_build_message] received it,
    and [send] passes the member of [CommunityChannelTypes] where
    [_build_topic] takes its value. [json.dumps] has no encoding for an Enum
    member: for every member and every non-empty value it raises
    [TypeError] on the envelope, and so does [_build_message]. *)
Lemma build_message_of_member_raises (channel_type : EnumMember) (v : pyobj) :
  truthy v = true → _build_message (PEnum channel_type) v = Raise TypeError.
Proof. intros Hv. unfold _build_message. rewrite Hv. reflexivity. Qed.

(** C4 on the code: for the channel type [SIGNAL], as [send] passes it, and
    the value [{"price": 42}], [_build_message] raises [TypeError] in
    [json.dumps]. No payload is returned, so no payload decodes to the
    envelope of [SIGNAL], of its value, the minimum version and the value. *)
Theorem envelope_of_member_is_not_encoded :
  let v := PDict [("price", PInt 42)] in
  truthy v = true
  ∧ _build_message (PEnum Sample.SIGNAL) v = Raise TypeError
  ∧ ¬ ∃ payload,
        _build_message (PEnum Sample.SIGNAL) v = Ok (PBytes payload)
        ∧ (decode payload
           = Ok (PDict [("c", PEnum Sample.SIGNAL); ("v", PStr "1.0.0");
                        ("s", v)])
           ∨ decode payload
             = Ok (PDict [("c", PStr "Signal"); ("v", PStr "1.0.0");
                          ("s", v)])).
Proof.
  intros v. split; [reflexivity|].
  assert (Hraise : _build_message (PEnum Sample.SIGNAL) v = Raise TypeError)
    by (by apply build_message_of_member_raises).
  split; [done|]. intros (payload & Hbuilt & _).
  rewrite Hraise in Hbuilt. discriminate.
Qed.

(** An empty message is published as the empty dict. *)
Example send_of_nothing :
  send PNone Sample.SIGNAL (Some "A") Sample.started
  = (Ok tt, after Sample.started [Publish "Signal/A" (PDict []) 1]).
Proof.
  refine (proj2
    (send_publishes_once PNone Sample.SIGNAL (Some "A") Sample.started
       (new_client true) _) _);
    reflexivity.
Qed.

(** C10 on the code: on the started feed, [send] of the message
    [{"price": 42}] on the channel [SIGNAL] raises [TypeError], from
    [json.dumps] in [_build_message], and publishes nothing: the feed and
    its trace are as they were before the call. *)
Theorem send_of_message_publishes_nothing :
  let message := PDict [("price", PInt 42)] in
  let r := send message Sample.SIGNAL (Some "A") Sample.started in
  _mqtt_client (self Sample.started) = Some (new_client true)
  ∧ truthy message = true
  ∧ r = (Raise TypeError, Sample.started)
  ∧ published (trace (snd r)) = [].
Proof.
  intros message r. split; [reflexivity|]. split; [reflexivity|].
  assert (Hr : r = (Raise TypeError, Sample.started)).
  { apply (send_encoding_raises message Sample.SIGNAL (Some "A")
             Sample.started (new_client true)); [reflexivity|].
    by apply build_message_of_member_raises. }
  split; [done|]. rewrite Hr. reflexivity.
Qed.

Lemma topic_derivation_witness :
  _build_topic Sample.price (Some "A") ≠ _build_topic Sample.price (Some "B").
Proof.
  apply (proj2 (proj2 (topic_derivation Sample.price))). discriminate.
Defined.

(** C8, as stated, fails: the absent identifier and the identifier "None"
    are different and give the same topic. *)
Lemma absent_identifier_collides :
  (None : option string) ≠ Some "None"
  ∧ _build_topic Sample.price None = _build_topic Sample.price (Some "None").
Proof. split; [discriminate|reflexivity]. Qed.

Example negative_acknowledgement :
  resubscribed
    (trace (snd (_on_subscribe Sample.broker 7 [128; 1] PNone Sample.started)))
  = [{| topic := "Signal/A"; qos := 1; mid := Some 7 |}].
Proof. vm_compute. reflexivity. Qed.

(** C2 on the code: the second registration of the same channel type and
    identifier finds the identifier, not the topic, missing from the
    subscribed set, and asks the transport to subscribe to "Signal/A" a
    second time. The set holds the topic once. *)
Theorem register_twice_subscribes_twice :
  let w1 := snd (register_feed_callback Sample.SIGNAL Sample.on_signal
                   (Some "A") Sample.started) in
  let w2 := snd (register_feed_callback Sample.SIGNAL Sample.on_signal_too
                   (Some "A") w1) in
  elements (_subscription_topics (self w1)) = ["Signal/A"]
  ∧ elements (_subscription_topics (self w2)) = ["Signal/A"]
  ∧ subscribe_requests (trace w1) = [[Sample.subscription "Signal/A"]]
  ∧ subscribe_requests (trace w2)
    = [[Sample.subscription "Signal/A"]; [Sample.subscription "Signal/A"]].
Proof. vm_compute. repeat split; reflexivity. Qed.

(** Before [start] there is no client: each registration adds the topic to
    the set and then raises on the missing client. *)
Example register_before_start :
  let r1 := register_feed_callback Sample.SIGNAL Sample.on_signal
              (Some "A") Sample.created in
  let r2 := register_feed_callback Sample.SIGNAL Sample.on_signal_too
              (Some "A") (snd r1) in
  fst r1 = Raise AttributeError
  ∧ fst r2 = Raise AttributeError
  ∧ elements (_subscription_topics (self (snd r2))) = ["Signal/A"]
  ∧ subscribe_requests (trace (snd r2)) = [].
Proof. vm_compute. repeat split; reflexivity. Qed.

(** C5 on the code: after registrations with the identifiers "x" and
    "price/x", the second identifier is found in the subscribed set (it is
    the first topic), so the topic "price/price/x" is registered with its
    callback and never enters the set: the request sent on the "connected"
    event leaves it out. *)
Theorem connect_omits_registered_topic :
  feed_callbacks (self Sample.nested) !! "price/price/x"
  = Some [Sample.on_signal_too]
  ∧ elements (_subscription_topics (self Sample.nested)) = ["price/x"]
  ∧ subscribe_requests
      (trace (snd (_on_connect Sample.broker 0 0 PNone Sample.nested)))
    = subscribe_requests (trace Sample.nested)
      ++ [[Sample.subscription "price/x"]].
Proof. vm_compute. repeat split; reflexivity. Qed.

(** ** The further properties on concrete inputs *)

Lemma minimum_version_is_supported_witness :
  _ensure_supported (Sample.message_of_version "1.0.0") = Ok tt.
Proof.
  refine (proj1
    (minimum_version_is_supported Sample.broker "Signal/A"
       (Sample.payload_of_version "1.0.0") 1 PNone Sample.listening
       (Sample.message_of_version "1.0.0") _ _ _));
    [discriminate|vm_compute; reflexivity|reflexivity].
Defined.

Lemma longer_version_is_newer_witness :
  _ensure_supported (Sample.message_of_version "1.0.0-rc1") = Ok tt
  ∧ _ensure_supported (Sample.message_of_version "1.0")
    = Raise (UnsupportedError "Minimum version: 1.0.0").
Proof.
  split.
  - refine (proj1
      (longer_version_is_newer (Sample.message_of_version "1.0.0-rc1")
         "1.0.0-rc1"
         [LooseVersion.CStr "-"; LooseVersion.CStr "rc"; LooseVersion.CInt 1]
         _ _ _ _) _);
      try discriminate; reflexivity.
  - refine (proj2
      (longer_version_is_newer (Sample.message_of_version "1.0")
         "1.0" [LooseVersion.CInt 0] _ _ _ _) _);
      try discriminate; reflexivity.
Defined.

Lemma mixed_version_raises_witness :
  _ensure_supported (Sample.message_of_version "1.0.x") = Raise TypeError.
Proof.
  refine (proj1
    (mixed_version_raises Sample.broker "Signal/A"
       (Sample.payload_of_version "1.0.x") 1 PNone Sample.listening
       (Sample.message_of_version "1.0.x") "1.0.x"
       [LooseVersion.CInt 1; LooseVersion.CInt 0] 0%N "x" [] [] _ _ _ _ _));
    [discriminate|discriminate|vm_compute; reflexivity|reflexivity|].
  left. split; reflexivity.
Defined.

Lemma version_must_be_a_string_witness :
  _ensure_supported (PDict [("v", PNone)]) = Raise AttributeError.
Proof.
  refine (version_must_be_a_string (PDict [("v", PNone)]) PNone _ _);
    [reflexivity|]. intros s _. discriminate.
Defined.

Lemma envelope_without_version_raises_witness :
  _on_message Sample.broker "Signal/A"
              (Sample.payload_of (PList [PInt 1; PInt 2])) 1 PNone Sample.listening
  = (Raise TypeError,
     after Sample.listening
       [Log DEBUG (RECV_MSG "CommunityMQTTFeed" "Signal/A"
                            (Sample.payload_of (PList [PInt 1; PInt 2])) 1)]).
Proof.
  refine (envelope_without_version_raises Sample.broker "Signal/A"
            (Sample.payload_of (PList [PInt 1; PInt 2])) 1 PNone
            Sample.listening (PList [PInt 1; PInt 2]) _ _);
    [vm_compute; reflexivity|exact I].
Defined.

Lemma callback_exception_stops_dispatch_witness :
  _on_message Sample.broker "Signal/A" (Sample.payload_of_version "1.0.0")
              1 PNone (Sample.fragile Sample.failing)
  = (Raise (OtherError "RuntimeError"),
     after (Sample.fragile Sample.failing)
       [Log DEBUG (RECV_MSG "CommunityMQTTFeed" "Signal/A"
                            (Sample.payload_of_version "1.0.0") 1);
        Await "on_signal" (Sample.message_of_version "1.0.0");
        Await "failing" (Sample.message_of_version "1.0.0")])
  ∧ _on_message Sample.broker "Signal/A" (Sample.payload_of_version "1.0.0")
                1 PNone (Sample.fragile Sample.refusing)
    = (Ok tt,
       after (Sample.fragile Sample.refusing)
         [Log DEBUG (RECV_MSG "CommunityMQTTFeed" "Signal/A"
                              (Sample.payload_of_version "1.0.0") 1);
          Await "on_signal" (Sample.message_of_version "1.0.0");
          Await "refusing" (Sample.message_of_version "1.0.0");
          Log ERROR (Unsupported_message "not for me")]).
Proof.
  split.
  - refine (callback_exception_stops_dispatch Sample.broker "Signal/A"
              (Sample.payload_of_version "1.0.0") 1 PNone
              (Sample.fragile Sample.failing)
              (Sample.message_of_version "1.0.0")
              [Sample.on_signal] Sample.failing [Sample.on_signal_too]
              (OtherError "RuntimeError") _ _ _ _ _);
      [vm_compute; reflexivity|reflexivity|vm_compute; reflexivity
      |repeat constructor|reflexivity].
  - refine (callback_exception_stops_dispatch Sample.broker "Signal/A"
              (Sample.payload_of_version "1.0.0") 1 PNone
              (Sample.fragile Sample.refusing)
              (Sample.message_of_version "1.0.0")
              [Sample.on_signal] Sample.refusing [Sample.on_signal_too]
              (UnsupportedError "not for me") _ _ _ _ _);
      [vm_compute; reflexivity|reflexivity|vm_compute; reflexivity
      |repeat constructor|reflexivity].
Defined.

Lemma built_message_is_dispatched_witness :
  ∃ payload,
    _build_message (PStr "Signal") (PDict [("price", PInt 42)])
    = Ok (PBytes payload)
    ∧ _on_message Sample.broker "Signal/A" payload 1 PNone Sample.listening
      = (Ok tt,
         after Sample.listening
           [Log DEBUG (RECV_MSG "CommunityMQTTFeed" "Signal/A" payload 1);
            Await "on_signal" (Sample.message_of_version "1.0.0");
            Await "on_signal_too" (Sample.message_of_version "1.0.0")]).
Proof.
  refine (built_message_is_dispatched Sample.broker "Signal/A" 1 PNone
            Sample.listening (PStr "Signal") (PDict [("price", PInt 42)])
            (Sample.text_of (Sample.message_of_version "1.0.0"))
            _ _ _ _ _ _ _ _ _ _);
    try discriminate; try (vm_compute; reflexivity).
  repeat constructor.
Defined.

Lemma only_registration_changes_the_registry_witness :
  feed_callbacks (self (snd (run Stop Sample.listening)))
  = feed_callbacks (self Sample.listening)
  ∧ _subscription_topics (self (snd (run Stop Sample.listening)))
    = _subscription_topics (self Sample.listening).
Proof.
  refine (only_registration_changes_the_registry Stop Sample.listening _).
  intros channel_type cb identifier. discriminate.
Defined.

Lemma unknown_acknowledgement_is_ignored_witness :
  _on_subscribe Sample.broker 99 [128] PNone Sample.started
  = (Ok tt, Sample.started).
Proof.
  refine (unknown_acknowledgement_is_ignored Sample.broker 99 [128] PNone
            Sample.started _).
  left. intros sub Hsub. cbn in Hsub.
  repeat (apply elem_of_cons in Hsub as [->|Hsub]; [discriminate|]).
  by apply elem_of_nil in Hsub.
Defined.

Lemma channel_type_of_envelope_witness :
  _get_channel_type (Sample.message_of_version "1.0.0") = Ok Sample.SIGNAL.
Proof.
  refine (proj1
    (channel_type_of_envelope (Sample.message_of_version "1.0.0") "Signal"
       _ _) Sample.SIGNAL _ _);
    [apply NoDup_singleton|reflexivity|by left|reflexivity].
Defined.

Lemma topic_determines_channel_and_identifier_witness :
  value Sample.SIGNAL = value Sample.SIGNAL
  ∧ format_identifier None = format_identifier (Some "None").
Proof.
  refine (topic_determines_channel_and_identifier Sample.SIGNAL Sample.SIGNAL
            None (Some "None") _ _ _);
    reflexivity.
Defined.

Lemma started_feed_subscribes_every_registration_witness :
  fst (register_all Sample.registrations Sample.started) = Ok tt
  ∧ ∃ topics,
      subscribe_requests
        (trace (snd (_on_connect Sample.broker 0 0 PNone
                       (snd (register_all Sample.registrations Sample.started)))))
      = subscribe_requests
          (trace (snd (register_all Sample.registrations Sample.started)))
        ++ [map (λ t, {| topic := t; qos := 1; mid := None |}) topics]
      ∧ NoDup topics
      ∧ ∀ t, t ∈ topics ↔ t ∈ topic_of <$> Sample.registrations.
Proof.
  refine (started_feed_subscribes_every_registration "mqtt.example.org"
            Sample.registrations Sample.broker 0 0 PNone _ _);
    [discriminate|].
  intros r Hr.
  repeat (apply elem_of_cons in Hr as [->|Hr]; [vm_compute; reflexivity|]).
  by apply elem_of_nil in Hr.
Defined.

Lemma on_connect_nothing_to_subscribe_witness :
  _on_connect Sample.broker 0 0 PNone Sample.started
  = (Ok tt,
     after Sample.started
       [Log INFO (CONNECTED "CommunityMQTTFeed");
        Log DEBUG No_topic_to_subscribe_to]).
Proof.
  refine (on_connect_nothing_to_subscribe Sample.broker 0 0 PNone
            Sample.started _).
  reflexivity.
Defined.

Lemma reconnection_repeats_the_request_witness :
  let w1 := snd (_on_connect Sample.broker 0 0 PNone Sample.listening) in
  let w2 := snd (_on_connect Sample.broker 0 0 PNone w1) in
  subscribe_requests (trace w1)
  = subscribe_requests (trace Sample.listening)
    ++ [[Sample.subscription "Signal/A"]]
  ∧ subscribe_requests (trace w2)
    = subscribe_requests (trace w1) ++ [[Sample.subscription "Signal/A"]].
Proof.
  pose proof (reconnection_repeats_the_request Sample.broker Sample.broker
                0 0 0 0 PNone PNone Sample.listening) as Hrun.
  cbn zeta in Hrun. destruct Hrun as (_ & _ & H1 & H2 & _).
  split; [exact H1|exact H2].
Defined.

Lemma stop_disconnects_once_witness :
  trace (snd (stop Sample.started)) = trace Sample.started ++ [Disconnect].
Proof. exact (proj2 (proj2 (proj2 (stop_disconnects_once Sample.started)))). Defined.
